(** * A static type checker for a small Java-like expression language

    Shallow embedding of [java_type_checker/expressions.py]: the expression
    variants, [static_type] and the recursive, fail-fast [check_types].

    Python exceptions are modelled by the [result] monad: a call either
    returns a value or raises an exception, and the first exception raised
    aborts everything that follows. *)

From Stdlib Require Import String Ascii DecimalString.
From stdpp Require Import base option list gmap strings.

Set Warnings "-register-all".
Local Open Scope string_scope.
Local Open Scope list_scope.

(** ** Exceptions and results *)

(** The exceptions a run of the checker can end with.  [JavaTypeError] is the
    checker's own error signal; the other two are what the Python runtime
    raises for a missing attribute and for an index out of range. *)
Inductive exn : Type :=
| JavaTypeError (message : string)
| AttributeError (attribute : string)
| IndexError.

Inductive result (A : Type) : Type :=
| Return (a : A)
| Raise (e : exn).
Arguments Return {A} a.
Arguments Raise {A} e.

#[global] Instance result_ret : MRet result := fun _ a => Return a.
#[global] Instance result_bind : MBind result := fun _ _ f m =>
  match m with
  | Return a => f a
  | Raise e => Raise e
  end.

(** [for x in xs: body(x)] for a body that returns nothing. *)
Definition for_each {A : Type} (body : A -> result unit) : list A -> result unit :=
  fix loop (xs : list A) : result unit :=
    match xs with
    | [] => Return tt
    | x :: xs' => body x ≫= fun _ => loop xs'
    end.

(** [xs[i]]: an index past the end raises [IndexError]. *)
Definition subscript {A : Type} (xs : list A) (i : nat) : result A :=
  match xs !! i with
  | Some x => Return x
  | None => Raise IndexError
  end.

(** [str(n)] for a length. *)
Definition str (n : nat) : string := NilZero.string_of_uint (Nat.to_uint n).

(** ** The type model, as the checker sees it *)

Module Method.
Record t (T : Type) : Type := mk {
  name : string;
  argument_types : list T;
  return_type : T
}.
Arguments mk {T}.
Arguments name {T}.
Arguments argument_types {T}.
Arguments return_type {T}.
End Method.

Module Constructor.
Record t (T : Type) : Type := mk {
  argument_types : list T
}.
Arguments mk {T}.
Arguments argument_types {T}.
End Constructor.

(** The module [types] is imported by [expressions.py] but is not among the
    sources; the checker only reads the attributes and calls the operations
    listed here, so they are the interface of a type object.  [constructor] is
    optional: reading it from a type that has none is an [AttributeError].
    [find_method] is the search of [method_named] through the supertype
    chain. *)
Class TypeModel (T : Type) : Type := {
  name : T -> string;
  is_instantiable : T -> bool;
  constructor : T -> option (Constructor.t T);
  is_subtype_of : T -> T -> bool;
  find_method : T -> string -> option (Method.t T);
  object : T;
  null : T
}.

Section Checker.
Context {T : Type} `{TypeModel T}.

Definition no_such_method (t : T) (method_name : string) : string :=
  name t +:+ " has no method named " +:+ method_name.

(** Modelled from the spec: [method_named] of the absent [types] module.
    It returns the first match of the search through the chain; when there
    is none, the failure surfaces as a type error, the single error kind of
    the checker.  The wording of that message is not fixed by the spec. *)
Definition method_named (t : T) (method_name : string) : result (Method.t T) :=
  match find_method t method_name with
  | Some m => Return m
  | None => Raise (JavaTypeError (no_such_method t method_name))
  end.

(** [t.constructor] *)
Definition get_constructor (t : T) : result (Constructor.t T) :=
  match constructor t with
  | Some c => Return c
  | None => Raise (AttributeError "constructor")
  end.

(** Helper for formatting pretty error messages *)
Definition names (named_things : list T) : string :=
  "(" +:+ String.concat ", " (map name named_things) +:+ ")".

(** AST for simple Java expressions.  [Variable_] is the class [Variable]
    (a reserved word here); [NullLiteral] is a [Literal]. *)
Inductive Expression : Type :=
| Variable_ (name : string) (declared_type : T)
| Literal (value : string) (type : T)
| MethodCall (receiver : Expression) (method_name : string) (args : list Expression)
| ConstructorCall (instantiated_type : T) (args : list Expression).

Definition NullLiteral : Expression := Literal "null" null.

Fixpoint static_type (e : Expression) : result T :=
  match e with
  | Variable_ _ declared_type => Return declared_type
  | Literal _ type => Return type
  | MethodCall receiver method_name _ =>
      receiver_type ← static_type receiver;
      method ← method_named receiver_type method_name;
      Return (Method.return_type method)
  | ConstructorCall instantiated_type _ => Return instantiated_type
  end.

(** The error messages, as [str.format] builds them. *)
Definition no_methods_message (receiver_type : T) : string :=
  "Type " +:+ name receiver_type +:+ " does not have methods".

Definition method_arity_message (receiver_type : T) (method_name : string)
    (expected actual : nat) : string :=
  "Wrong number of arguments for " +:+ name receiver_type +:+ "." +:+ method_name
    +:+ "(): expected " +:+ str expected +:+ ", got " +:+ str actual.

Definition method_mismatch_message (receiver_type : T) (method_name : string)
    (expected actual : list T) : string :=
  name receiver_type +:+ "." +:+ method_name +:+ "() expects arguments of type "
    +:+ names expected +:+ ", but got " +:+ names actual.

Definition not_instantiable_message (instantiated_type : T) : string :=
  "Type " +:+ name instantiated_type +:+ " is not instantiable".

Definition constructor_arity_message (instantiated_type : T)
    (expected actual : nat) : string :=
  "Wrong number of arguments for " +:+ name instantiated_type
    +:+ " constructor: expected " +:+ str expected +:+ ", got " +:+ str actual.

Definition constructor_mismatch_message (instantiated_type : T)
    (expected actual : list T) : string :=
  name instantiated_type +:+ " constructor expects arguments of type "
    +:+ names expected +:+ ", but got " +:+ names actual.

Fixpoint check_types (e : Expression) : result unit :=
  match e with
  | Variable_ _ _ => Return tt
  | Literal _ _ => Return tt
  | MethodCall receiver method_name args =>
      (* Recursively check the types of the rest of the expressions *)
      check_types receiver;;
      for_each check_types args;;
      receiver_type ← static_type receiver;
      (* Check that methods can be called on the receiver *)
      (if negb (is_subtype_of receiver_type object)
       then Raise (JavaTypeError (no_methods_message receiver_type))
       else Return tt);;
      (* Check that there are the correct number of arguments *)
      method ← method_named receiver_type method_name;
      let expected_arg_types := Method.argument_types method in
      (if negb (length expected_arg_types =? length args)%nat
       then Raise (JavaTypeError
              (method_arity_message receiver_type method_name
                 (length expected_arg_types) (length args)))
       else Return tt);;
      (* Check that the argument types match with the method declaration *)
      for_each (fun i =>
          arg ← subscript args i;
          actual ← static_type arg;
          expected ← subscript expected_arg_types i;
          if negb (is_subtype_of actual expected)
          then
            receiver_type' ← static_type receiver;
            actuals ← mapM static_type args;
            Raise (JavaTypeError
              (method_mismatch_message receiver_type' method_name
                 expected_arg_types actuals))
          else Return tt)
        (seq 0 (length expected_arg_types))
  | ConstructorCall instantiated_type args =>
      (* Recursively check the types of the rest of the expressions *)
      for_each check_types args;;
      (* Check that the type is instantiable *)
      (if negb (is_instantiable instantiated_type)
       then Raise (JavaTypeError (not_instantiable_message instantiated_type))
       else Return tt);;
      (* Check that there are the correct number of arguments *)
      ctor ← get_constructor instantiated_type;
      let expected_arg_types := Constructor.argument_types ctor in
      (if negb (length expected_arg_types =? length args)%nat
       then Raise (JavaTypeError
              (constructor_arity_message instantiated_type
                 (length expected_arg_types) (length args)))
       else Return tt);;
      (* Check that the argument types match with the method declaration *)
      for_each (fun i =>
          arg ← subscript args i;
          actual ← static_type arg;
          expected ← subscript expected_arg_types i;
          if negb (is_subtype_of actual expected)
          then
            actuals ← mapM static_type args;
            Raise (JavaTypeError
              (constructor_mismatch_message instantiated_type
                 expected_arg_types actuals))
          else Return tt)
        (seq 0 (length expected_arg_types))
  end.

(** The body of [check_types] in named pieces, for the proofs. *)

(** The step of a call that compares the arguments with the declared
    parameter types, index by index; [mismatch] is what is done at an index
    that fails. *)
Definition compare_at (args : list Expression) (expected_arg_types : list T)
    (mismatch : result unit) (i : nat) : result unit :=
  arg ← subscript args i;
  actual ← static_type arg;
  expected ← subscript expected_arg_types i;
  if negb (is_subtype_of actual expected) then mismatch else Return tt.

(** What a method call does once its children are checked. *)
Definition validate_method_call (receiver : Expression) (method_name : string)
    (args : list Expression) : result unit :=
  receiver_type ← static_type receiver;
  (if negb (is_subtype_of receiver_type object)
   then Raise (JavaTypeError (no_methods_message receiver_type))
   else Return tt);;
  method ← method_named receiver_type method_name;
  (if negb (length (Method.argument_types method) =? length args)%nat
   then Raise (JavaTypeError
          (method_arity_message receiver_type method_name
             (length (Method.argument_types method)) (length args)))
   else Return tt);;
  for_each
    (compare_at args (Method.argument_types method)
       (receiver_type' ← static_type receiver;
        actuals ← mapM static_type args;
        Raise (JavaTypeError
          (method_mismatch_message receiver_type' method_name
             (Method.argument_types method) actuals))))
    (seq 0 (length (Method.argument_types method))).

(** What a constructor call does once its arguments are checked. *)
Definition validate_constructor_call (instantiated_type : T)
    (args : list Expression) : result unit :=
  (if negb (is_instantiable instantiated_type)
   then Raise (JavaTypeError (not_instantiable_message instantiated_type))
   else Return tt);;
  ctor ← get_constructor instantiated_type;
  (if negb (length (Constructor.argument_types ctor) =? length args)%nat
   then Raise (JavaTypeError
          (constructor_arity_message instantiated_type
             (length (Constructor.argument_types ctor)) (length args)))
   else Return tt);;
  for_each
    (compare_at args (Constructor.argument_types ctor)
       (actuals ← mapM static_type args;
        Raise (JavaTypeError
          (constructor_mismatch_message instantiated_type
             (Constructor.argument_types ctor) actuals))))
    (seq 0 (length (Constructor.argument_types ctor))).

End Checker.

Arguments Expression T : clear implicits.

(** ** A class hierarchy

    The [types] module is not among the sources.  This is the type model the
    specification describes: every type is known by its name and declared in
    a registry; a declaration holds an optional supertype, a method table, an
    optional constructor signature and the instantiability flag. *)
Module Hierarchy.

Record Declaration : Type := declare {
  supertype : option string;
  methods : gmap string (Method.t string);
  constructor : option (Constructor.t string);
  is_instantiable : bool
}.

Section Registry.
Variable registry : gmap string Declaration.

Definition root : string := "Object".
Definition null_type : string := "null".

(** Modelled from the spec: walking the supertype chain of [self] reaches
    [other].  The chain is finite, and no longer than the registry. *)
Fixpoint reaches (fuel : nat) (self other : string) : bool :=
  match fuel with
  | O => false
  | S fuel' =>
      match registry !! self ≫= supertype with
      | Some super => bool_decide (super = other) || reaches fuel' super other
      | None => false
      end
  end.

(** Modelled from the spec: a reference type is the root or a type below
    it. *)
Definition is_reference (t : string) : bool :=
  bool_decide (t = root) || reaches (size registry) t root.

(** Modelled from the spec: [is_subtype_of] of the absent [types] module:
    true iff [self == other], or [self] is the null type and [other] is
    any reference type, or walking the supertype chain of [self] reaches
    [other]. *)
Definition is_subtype_of (self other : string) : bool :=
  bool_decide (self = other)
  || (bool_decide (self = null_type) && is_reference other)
  || reaches (size registry) self other.

(** Modelled from the spec: the search of [method_named]: the method
    table of the type itself, then each ancestor in turn; the nearest
    match wins. *)
Fixpoint find_method (fuel : nat) (self : string) (name : string)
    : option (Method.t string) :=
  match fuel with
  | O => None
  | S fuel' =>
      decl ← registry !! self;
      match methods decl !! name with
      | Some m => Some m
      | None => super ← supertype decl; find_method fuel' super name
      end
  end.

End Registry.

End Hierarchy.

(** Modelled from the spec: the attributes of a type object, read from its
    declaration in the registry.  A name without a declaration has no
    constructor, no methods and is not instantiable. *)
Definition hierarchy (registry : gmap string Hierarchy.Declaration)
    : TypeModel string := {|
  name := fun t => t;
  is_instantiable := fun t =>
    match registry !! t with
    | Some decl => Hierarchy.is_instantiable decl
    | None => false
    end;
  constructor := fun t => registry !! t ≫= Hierarchy.constructor;
  is_subtype_of := Hierarchy.is_subtype_of registry;
  find_method := Hierarchy.find_method registry (S (size registry));
  object := Hierarchy.root;
  null := Hierarchy.null_type
|}.

(** ** The expression tree as objects in a store

    In Python an expression is an object whose fields refer to its children.
    The store holds the objects; a reference is the address of one.  The
    constructors of the classes are the only code that assigns fields;
    [static_type] and [check_types] read them.  A computation on the store
    threads it through, and ends with a result, or gives up ([None]) when it
    meets a reference without an object or when its recursion budget is
    spent. *)
Section Store.
Context {T : Type} `{TypeModel T}.

Definition ref : Type := nat.

Inductive Obj : Type :=
| VariableObject (name : string) (declared_type : T)
| LiteralObject (value : string) (type : T)
| MethodCallObject (receiver : ref) (method_name : string) (args : list ref)
| ConstructorCallObject (instantiated_type : T) (args : list ref).

Definition store : Type := list Obj.

Definition M (A : Type) : Type := store -> option (result A) * store.

Definition unit_M {A : Type} (a : A) : M A := fun s => (Some (Return a), s).

Definition bind_M {A B : Type} (m : M A) (k : A -> M B) : M B := fun s =>
  match m s with
  | (Some (Return a), s') => k a s'
  | (Some (Raise e), s') => (Some (Raise e), s')
  | (None, s') => (None, s')
  end.

Definition abandon {A : Type} : M A := fun s => (None, s).

(** A pure call, such as a method of a type object. *)
Definition lift {A : Type} (r : result A) : M A := fun s => (Some r, s).

(** Reading the fields of the object at [r]. *)
Definition load (r : ref) : M Obj := fun s =>
  match s !! r with
  | Some o => (Some (Return o), s)
  | None => (None, s)
  end.

(** Assigning the fields of the object at [r]. *)
Definition assign (r : ref) (o : Obj) : M unit := fun s =>
  (Some (Return tt), <[r := o]> s).

(** Creating an object: what [__init__] does. *)
Definition new (o : Obj) : M ref := fun s =>
  (Some (Return (length s)), s ++ [o]).

Definition for_each_M {A : Type} (body : A -> M unit) : list A -> M unit :=
  fix loop (xs : list A) : M unit :=
    match xs with
    | [] => unit_M tt
    | x :: xs' => bind_M (body x) (fun _ => loop xs')
    end.

Definition map_M {A B : Type} (f : A -> M B) : list A -> M (list B) :=
  fix loop (xs : list A) : M (list B) :=
    match xs with
    | [] => unit_M []
    | x :: xs' => bind_M (f x) (fun y => bind_M (loop xs') (fun ys => unit_M (y :: ys)))
    end.

Fixpoint static_type_at (depth : nat) (self : ref) : M T :=
  match depth with
  | O => abandon
  | S depth' =>
      bind_M (load self) (fun o =>
      match o with
      | VariableObject _ declared_type => unit_M declared_type
      | LiteralObject _ type => unit_M type
      | MethodCallObject receiver method_name _ =>
          bind_M (static_type_at depth' receiver) (fun receiver_type =>
          bind_M (lift (method_named receiver_type method_name)) (fun method =>
          unit_M (Method.return_type method)))
      | ConstructorCallObject instantiated_type _ => unit_M instantiated_type
      end)
  end.

Definition if_not (b : bool) (message : string) : M unit :=
  if negb b then lift (Raise (JavaTypeError message)) else unit_M tt.

Fixpoint check_types_at (depth : nat) (self : ref) : M unit :=
  match depth with
  | O => abandon
  | S depth' =>
      bind_M (load self) (fun o =>
      match o with
      | VariableObject _ _ => unit_M tt
      | LiteralObject _ _ => unit_M tt
      | MethodCallObject receiver method_name args =>
          bind_M (check_types_at depth' receiver) (fun _ =>
          bind_M (for_each_M (check_types_at depth') args) (fun _ =>
          bind_M (static_type_at depth' receiver) (fun receiver_type =>
          bind_M (if_not (is_subtype_of receiver_type object)
                    (no_methods_message receiver_type)) (fun _ =>
          bind_M (lift (method_named receiver_type method_name)) (fun method =>
          let expected_arg_types := Method.argument_types method in
          bind_M (if_not (length expected_arg_types =? length args)%nat
                    (method_arity_message receiver_type method_name
                       (length expected_arg_types) (length args))) (fun _ =>
          for_each_M (fun i =>
              bind_M (lift (subscript args i)) (fun arg =>
              bind_M (static_type_at depth' arg) (fun actual =>
              bind_M (lift (subscript expected_arg_types i)) (fun expected =>
              if negb (is_subtype_of actual expected)
              then
                bind_M (static_type_at depth' receiver) (fun receiver_type' =>
                bind_M (map_M (static_type_at depth') args) (fun actuals =>
                lift (Raise (JavaTypeError
                  (method_mismatch_message receiver_type' method_name
                     expected_arg_types actuals)))))
              else unit_M tt))))
            (seq 0 (length expected_arg_types))))))))
      | ConstructorCallObject instantiated_type args =>
          bind_M (for_each_M (check_types_at depth') args) (fun _ =>
          bind_M (if_not (is_instantiable instantiated_type)
                    (not_instantiable_message instantiated_type)) (fun _ =>
          bind_M (lift (get_constructor instantiated_type)) (fun ctor =>
          let expected_arg_types := Constructor.argument_types ctor in
          bind_M (if_not (length expected_arg_types =? length args)%nat
                    (constructor_arity_message instantiated_type
                       (length expected_arg_types) (length args))) (fun _ =>
          for_each_M (fun i =>
              bind_M (lift (subscript args i)) (fun arg =>
              bind_M (static_type_at depth' arg) (fun actual =>
              bind_M (lift (subscript expected_arg_types i)) (fun expected =>
              if negb (is_subtype_of actual expected)
              then
                bind_M (map_M (static_type_at depth') args) (fun actuals =>
                lift (Raise (JavaTypeError
                  (constructor_mismatch_message instantiated_type
                     expected_arg_types actuals))))
              else unit_M tt))))
            (seq 0 (length expected_arg_types))))))
      end)
  end.

(** The caller building a tree: children first, then the node. *)
Fixpoint build (e : Expression T) : M ref :=
  match e with
  | Variable_ name declared_type => new (VariableObject name declared_type)
  | Literal value type => new (LiteralObject value type)
  | MethodCall receiver method_name args =>
      bind_M (build receiver) (fun r =>
      bind_M (map_M build args) (fun rs =>
      new (MethodCallObject r method_name rs)))
  | ConstructorCall instantiated_type args =>
      bind_M (map_M build args) (fun rs =>
      new (ConstructorCallObject instantiated_type rs))
  end.

(** [R] relates the two lists element by element. *)
Definition pairwise {A B : Type} (R : A -> B -> Prop) : list A -> list B -> Prop :=
  fix loop (xs : list A) (ys : list B) {struct xs} : Prop :=
    match xs, ys with
    | [], [] => True
    | x :: xs', y :: ys' => R x y /\ loop xs' ys'
    | _, _ => False
    end.

(** The objects reachable from [r] in the store [s] are the tree [e]. *)
Fixpoint represents (s : store) (r : ref) (e : Expression T) : Prop :=
  match e with
  | Variable_ name declared_type => s !! r = Some (VariableObject name declared_type)
  | Literal value type => s !! r = Some (LiteralObject value type)
  | MethodCall receiver method_name args =>
      exists r' rs,
        s !! r = Some (MethodCallObject r' method_name rs)
        /\ represents s r' receiver
        /\ pairwise (fun a r => represents s r a) args rs
  | ConstructorCall instantiated_type args =>
      exists rs,
        s !! r = Some (ConstructorCallObject instantiated_type rs)
        /\ pairwise (fun a r => represents s r a) args rs
  end.

(** A computation that leaves the store as it found it. *)
Definition reads_only {A : Type} (m : M A) : Prop := forall s, (m s).2 = s.

(** A computation that, on the store [s], does what the pure computation
    [r] does and leaves [s] as it is. *)
Definition agrees {A : Type} (m : M A) (s : store) (r : result A) : Prop :=
  m s = (Some r, s).

(** The height of a tree: the recursion depth its check needs. *)
Fixpoint height (e : Expression T) : nat :=
  match e with
  | Variable_ _ _ => 1
  | Literal _ _ => 1
  | MethodCall receiver _ args =>
      S (Nat.max (height receiver) (foldr (fun a n => Nat.max (height a) n) 0 args))
  | ConstructorCall _ args =>
      S (foldr (fun a n => Nat.max (height a) n) 0 args)
  end.

(** The height of the tallest of the arguments. *)
Definition tallest (args : list (Expression T)) : nat :=
  foldr (fun a n => Nat.max (height a) n) 0 args.

End Store.

Arguments Obj T : clear implicits.
Arguments store T : clear implicits.
Arguments M T A : clear implicits.

(** ** The walk, the typing rules and the likeness of trees

    What the properties of the whole walk are stated with. *)
Section Walk.
Context {T : Type} `{TypeModel T}.

(** What [check_types] does at one node once its children are checked. *)
Definition validate (e : Expression T) : result unit :=
  match e with
  | Variable_ _ _ => Return tt
  | Literal _ _ => Return tt
  | MethodCall receiver method_name args =>
      validate_method_call receiver method_name args
  | ConstructorCall instantiated_type args =>
      validate_constructor_call instantiated_type args
  end.

(** The nodes of a tree, children before their parent, left to right. *)
Fixpoint postorder (e : Expression T) : list (Expression T) :=
  match e with
  | Variable_ _ _ => [e]
  | Literal _ _ => [e]
  | MethodCall receiver _ args =>
      postorder receiver ++ flat_map postorder args ++ [e]
  | ConstructorCall _ args => flat_map postorder args ++ [e]
  end.

(** The typing rules that the checks of [check_types] amount to: [e] is
    well typed, of type [t]. *)
Inductive has_type : Expression T -> T -> Prop :=
| type_Variable name declared_type :
    has_type (Variable_ name declared_type) declared_type
| type_Literal value type :
    has_type (Literal value type) type
| type_MethodCall receiver method_name args receiver_type method :
    has_type receiver receiver_type ->
    is_subtype_of receiver_type object = true ->
    find_method receiver_type method_name = Some method ->
    Forall2 (fun arg expected =>
               exists actual, has_type arg actual
                              /\ is_subtype_of actual expected = true)
      args (Method.argument_types method) ->
    has_type (MethodCall receiver method_name args) (Method.return_type method)
| type_ConstructorCall instantiated_type args ctor :
    is_instantiable instantiated_type = true ->
    constructor instantiated_type = Some ctor ->
    Forall2 (fun arg expected =>
               exists actual, has_type arg actual
                              /\ is_subtype_of actual expected = true)
      args (Constructor.argument_types ctor) ->
    has_type (ConstructorCall instantiated_type args) instantiated_type.

(** Two trees that the checker cannot tell apart: the same outcome of
    [check_types] and of [static_type]. *)
Definition alike (e e' : Expression T) : Prop :=
  check_types e = check_types e' /\ static_type e = static_type e'.

(** The tree with every variable renamed by [f] and every literal value
    replaced by [g]. *)
Fixpoint relabel (f g : string -> string) (e : Expression T) : Expression T :=
  match e with
  | Variable_ name declared_type => Variable_ (f name) declared_type
  | Literal value type => Literal (g value) type
  | MethodCall receiver method_name args =>
      MethodCall (relabel f g receiver) method_name (map (relabel f g) args)
  | ConstructorCall instantiated_type args =>
      ConstructorCall instantiated_type (map (relabel f g) args)
  end.

(** The failure of a constructor signature that is not there: [x] is the
    exception of reading it, and [e] instantiates such a type. *)
Definition missing_constructor (e : Expression T) (x : exn) : Prop :=
  x = AttributeError "constructor"
  /\ exists t args,
       ConstructorCall t args ∈ postorder e
       /\ is_instantiable t = true
       /\ constructor t = None.

(** Every instantiable type of the model has a constructor signature. *)
Definition constructors_declared : Prop :=
  forall t : T, is_instantiable t = true -> constructor t <> None.

End Walk.

(** ** The hierarchy of the scenarios

    [Object] is the root, not instantiable, with [toString(): Object];
    [Animal] and [Dog] are instantiable with constructors of no argument;
    [Dog] has [bark(): void], [feed(Animal): void] and
    [walk(Leash, Animal, Animal): void]; [Pet] is an abstract class; a
    [Leash] is made from a [Dog] and an [Animal]; [int] and [void] are not
    reference types. *)
Module Zoo.
Import Hierarchy.

Definition Object : Declaration :=
  declare None {[ "toString" := Method.mk "toString" [] "Object" ]} None false.
Definition Animal : Declaration :=
  declare (Some "Object") ∅ (Some (Constructor.mk [])) true.
Definition Dog : Declaration :=
  declare (Some "Animal")
    {[ "bark" := Method.mk "bark" [] "void";
       "feed" := Method.mk "feed" ["Animal"] "void";
       "walk" := Method.mk "walk" ["Leash"; "Animal"; "Animal"] "void" ]}
    (Some (Constructor.mk [])) true.
Definition Pet : Declaration :=
  declare (Some "Animal") ∅ (Some (Constructor.mk [])) false.
Definition Leash : Declaration :=
  declare (Some "Object") ∅ (Some (Constructor.mk ["Dog"; "Animal"])) true.
Definition primitive : Declaration := declare None ∅ None false.

Definition registry : gmap string Declaration :=
  {[ "Object" := Object; "Animal" := Animal; "Dog" := Dog; "Pet" := Pet;
     "Leash" := Leash;
     "int" := primitive; "void" := primitive; "null" := primitive ]}.

#[export] Instance types : TypeModel string := hierarchy registry.

Definition five : Expression string := Literal "5" "int".
Definition dog : Expression string := ConstructorCall "Dog" [].
Definition animal : Expression string := ConstructorCall "Animal" [].
Definition leash : Expression string := ConstructorCall "Leash" [dog; animal].

(** Scenario A: [x.toString()] for [Object x]. *)
Definition x_toString : Expression string :=
  MethodCall (Variable_ "x" "Object") "toString" [].
(** Scenario B: [new Dog(5)]. *)
Definition dog_of_five : Expression string := ConstructorCall "Dog" [five].
(** Scenario C: [new Dog().bark(5)]. *)
Definition bark_at_five : Expression string := MethodCall dog "bark" [five].
(** Scenario D: [new Dog().feed(5)]. *)
Definition feed_five : Expression string := MethodCall dog "feed" [five].

(** [new Dog().walk(new Leash(..), 5, 5)]: the arguments at 1 and 2 do not fit. *)
Definition walk_with_fives : Expression string :=
  MethodCall dog "walk" [leash; five; five].
(** [new Leash(new Animal(), 5)]: neither argument fits. *)
Definition leash_of_animal : Expression string :=
  ConstructorCall "Leash" [animal; five].
(** [new Dog().fly(5)]: a [Dog] has no such method. *)
Definition dog_fly : Expression string := MethodCall dog "fly" [five].
(** [d.fly(new Pet())] for [Dog d]: no such method, and an argument that
    does not check. *)
Definition fly_with_pet : Expression string :=
  MethodCall (Variable_ "d" "Dog") "fly" [ConstructorCall "Pet" []].
(** [new Pet(5)]: an abstract class, and one argument too many. *)
Definition pet_of_five : Expression string := ConstructorCall "Pet" [five].
(** [new Dog().bark(new Pet())]: one argument too many, which does not
    check. *)
Definition bark_at_pet : Expression string :=
  MethodCall dog "bark" [ConstructorCall "Pet" []].
(** [5.bark(new Dog())]: an [int] has no methods. *)
Definition five_bark : Expression string := MethodCall five "bark" [dog].
(** [5.bark(new Dog(5))]: and an argument that does not check. *)
Definition five_bark_bad_dog : Expression string :=
  MethodCall five "bark" [dog_of_five].
(** [new Pet(new Dog())]. *)
Definition pet_of_dog : Expression string := ConstructorCall "Pet" [dog].
(** [new Pet(5.bark())]. *)
Definition pet_of_bark : Expression string :=
  ConstructorCall "Pet" [MethodCall five "bark" []].
(** [new Object(new Dog())]: [Object] has no constructor signature. *)
Definition object_of_dog : Expression string := ConstructorCall "Object" [dog].
(** [new Object(new Dog().feed(5))]. *)
Definition object_of_feed : Expression string := ConstructorCall "Object" [feed_five].
(** [new Dog(5).bark()]: the receiver does not check. *)
Definition bad_dog_bark : Expression string := MethodCall dog_of_five "bark" [].
(** [new Dog().feed(new Dog(), new Dog(5), 5)]: the second argument does
    not check, and the call has too many arguments. *)
Definition feed_bad_dog : Expression string :=
  MethodCall dog "feed" [dog; dog_of_five; five].
(** [new Leash(new Dog(), new Dog(5))]. *)
Definition leash_of_bad_dog : Expression string :=
  ConstructorCall "Leash" [dog; dog_of_five].

(** The objects of [new Dog().bark()], the call at address 1. *)
Definition dog_bark_store : store string :=
  [ConstructorCallObject "Dog" []; MethodCallObject 0 "bark" []].
End Zoo.



(** * Properties *)

(** ** The result monad and its loops *)

Lemma bind_Return {A B : Type} (a : A) (k : A -> result B) :
  Return a ≫= k = k a.
Proof. reflexivity. Qed.

Lemma bind_Raise {A B : Type} (e : exn) (k : A -> result B) :
  Raise e ≫= k = Raise e.
Proof. reflexivity. Qed.

Section Loops.
Context {A : Type} (body : A -> result unit).

Lemma for_each_nil : for_each body [] = Return tt.
Proof. reflexivity. Qed.

Lemma for_each_cons x xs :
  for_each body (x :: xs) = body x ≫= fun _ => for_each body xs.
Proof. reflexivity. Qed.

Lemma for_each_all_return xs :
  Forall (fun x => body x = Return tt) xs -> for_each body xs = Return tt.
Proof.
  induction 1 as [|x xs Hx _ IH]; [reflexivity|].
  rewrite for_each_cons, Hx. exact IH.
Qed.


(** The loop stops at the first element whose body raises: nothing after
    it is run. *)
Lemma for_each_first_raise before x after e :
  Forall (fun y => body y = Return tt) before ->
  body x = Raise e ->
  for_each body (before ++ x :: after) = Raise e.
Proof.
  intros Hbefore Hx.
  induction Hbefore as [|y ys Hy _ IH]; cbn [app].
  - rewrite for_each_cons, Hx. reflexivity.
  - rewrite for_each_cons, Hy. exact IH.
Qed.

(** A loop ends in exactly one of two ways. *)
Lemma for_each_cases xs :
  for_each body xs = Return tt
  \/ exists before x after e,
       xs = before ++ x :: after
       /\ Forall (fun y => body y = Return tt) before
       /\ body x = Raise e
       /\ for_each body xs = Raise e.
Proof.
  induction xs as [|x xs IH]; [left; reflexivity|].
  destruct (body x) as [[]|e] eqn:Hx.
  - destruct IH as [IH|(before & y & after & e & -> & Hb & Hy & Hrun)].
    + left. rewrite for_each_cons, Hx. exact IH.
    + right. exists (x :: before), y, after, e.
      repeat split; [constructor; assumption|exact Hy|].
      rewrite for_each_cons, Hx. exact Hrun.
  - right. exists [], x, xs, e.
    repeat split; [constructor|exact Hx|].
    rewrite for_each_cons, Hx. reflexivity.
Qed.
End Loops.

(** [for i in range(0, n)]: the first index whose body raises ends the loop. *)
Lemma for_range_first_raise (body : nat -> result unit) (n i : nat) (e : exn) :
  i < n ->
  (forall j, j < i -> body j = Return tt) ->
  body i = Raise e ->
  for_each body (seq 0 n) = Raise e.
Proof.
  intros Hi Hbefore Hraise.
  replace n with (i + S (n - S i)) by lia.
  rewrite seq_app. cbn [seq].
  apply for_each_first_raise; [|exact Hraise].
  apply Forall_forall. intros j Hj.
  apply list_elem_of_In, in_seq in Hj. apply Hbefore. lia.
Qed.

Lemma for_range_all_return (body : nat -> result unit) (n : nat) :
  (forall j, j < n -> body j = Return tt) ->
  for_each body (seq 0 n) = Return tt.
Proof.
  intros Hall. apply for_each_all_return, Forall_forall.
  intros j Hj. apply list_elem_of_In, in_seq in Hj. apply Hall. lia.
Qed.

Lemma subscript_Some {A : Type} (xs : list A) (i : nat) (x : A) :
  xs !! i = Some x -> subscript xs i = Return x.
Proof. intros Hx. unfold subscript. rewrite Hx. reflexivity. Qed.

(** [mapM f xs] returns exactly when [f] returns on every element. *)
Lemma mapM_Return {A B : Type} (f : A -> result B) (xs : list A) (ys : list B) :
  mapM f xs = Return ys <-> Forall2 (fun x y => f x = Return y) xs ys.
Proof.
  revert ys. induction xs as [|x xs IH]; intros ys; cbn [mapM].
  - split.
    + intros [= <-]. constructor.
    + intros Hnil. inversion Hnil. reflexivity.
  - split.
    + intros Hrun. destruct (f x) as [y|e] eqn:Hx; [|discriminate].
      cbn in Hrun. destruct (mapM f xs) as [ys'|e] eqn:Hxs; [|discriminate].
      cbn in Hrun. injection Hrun as <-.
      constructor; [exact Hx|]. apply IH. reflexivity.
    + intros Hcons. inversion Hcons as [|? y ? ys' Hx Hxs]; subst.
      apply IH in Hxs. rewrite Hx. cbn. rewrite Hxs. reflexivity.
Qed.

(** ** The checker on trees *)

Section CheckerFacts.
Context {T : Type} `{TypeModel T}.

(** Induction on a tree, with the hypothesis for every argument. *)
Lemma Expression_rect_args (P : Expression T -> Prop) :
  (forall name declared_type, P (Variable_ name declared_type)) ->
  (forall value type, P (Literal value type)) ->
  (forall receiver method_name args,
      P receiver -> Forall P args -> P (MethodCall receiver method_name args)) ->
  (forall instantiated_type args,
      Forall P args -> P (ConstructorCall instantiated_type args)) ->
  forall e, P e.
Proof.
  intros Hvar Hlit Hcall Hnew.
  fix IH 1. intros [name t|value t|receiver method_name args|t args].
  - apply Hvar.
  - apply Hlit.
  - apply Hcall; [apply IH|].
    induction args as [|a args IHargs]; constructor; [apply IH|exact IHargs].
  - apply Hnew.
    induction args as [|a args IHargs]; constructor; [apply IH|exact IHargs].
Qed.

Lemma check_types_MethodCall receiver method_name args :
  check_types (MethodCall receiver method_name args) =
    (check_types receiver;;
     for_each check_types args;;
     validate_method_call receiver method_name args).
Proof. reflexivity. Qed.

Lemma check_types_ConstructorCall instantiated_type args :
  check_types (ConstructorCall instantiated_type args) =
    (for_each check_types args;;
     validate_constructor_call instantiated_type args).
Proof. reflexivity. Qed.

Lemma method_named_Some t method_name m :
  find_method t method_name = Some m -> method_named t method_name = Return m.
Proof. intros Hm. unfold method_named. rewrite Hm. reflexivity. Qed.

Lemma method_named_None t method_name :
  find_method t method_name = None ->
  method_named t method_name = Raise (JavaTypeError (no_such_method t method_name)).
Proof. intros Hm. unfold method_named. rewrite Hm. reflexivity. Qed.

(** A checked tree has a static type. *)
Lemma static_type_of_checked e :
  check_types e = Return tt -> exists t, static_type e = Return t.
Proof.
  destruct e as [name t|value t|receiver method_name args|t args]; intros Hcheck.
  - exists t. reflexivity.
  - exists t. reflexivity.
  - rewrite check_types_MethodCall in Hcheck.
    destruct (check_types receiver) as [[]|e]; [|discriminate].
    rewrite bind_Return in Hcheck.
    destruct (for_each check_types args) as [[]|e]; [|discriminate].
    rewrite bind_Return in Hcheck. unfold validate_method_call in Hcheck.
    cbn [static_type].
    destruct (static_type receiver) as [receiver_type|e]; [|discriminate].
    rewrite !bind_Return in *.
    destruct (negb (is_subtype_of receiver_type object)); [discriminate|].
    rewrite bind_Return in Hcheck.
    destruct (method_named receiver_type method_name) as [m|e]; [|discriminate].
    exists (Method.return_type m). reflexivity.
  - exists t. reflexivity.
Qed.

Lemma static_types_of_checked args :
  Forall (fun a => check_types a = Return tt) args ->
  exists actuals, mapM static_type args = Return actuals.
Proof.
  induction 1 as [|a args Ha _ [actuals IH]].
  - exists []. reflexivity.
  - destruct (static_type_of_checked a Ha) as [t Ht].
    exists (t :: actuals). cbn [mapM]. rewrite Ht. cbn. rewrite IH. reflexivity.
Qed.

(** The comparison loop raises at the first index that fails. *)
Lemma compare_first_mismatch args expected_arg_types actuals mismatch e i actual expected :
  mapM static_type args = Return actuals ->
  mismatch = Raise e ->
  actuals !! i = Some actual ->
  expected_arg_types !! i = Some expected ->
  is_subtype_of actual expected = false ->
  (forall j a p, j < i -> actuals !! j = Some a -> expected_arg_types !! j = Some p ->
                 is_subtype_of a p = true) ->
  for_each (compare_at args expected_arg_types mismatch)
    (seq 0 (length expected_arg_types)) = Raise e.
Proof.
  intros Hactuals Hmismatch Hactual Hexpected Hfails Hbefore.
  apply mapM_Return in Hactuals.
  apply for_range_first_raise with (i := i).
  - apply lookup_lt_Some in Hexpected. exact Hexpected.
  - intros j Hj.
    destruct (lookup_lt_is_Some_2 actuals j) as [a Ha].
    { apply lookup_lt_Some in Hactual. lia. }
    destruct (lookup_lt_is_Some_2 expected_arg_types j) as [p Hp].
    { apply lookup_lt_Some in Hexpected. lia. }
    destruct (Forall2_lookup_r _ _ _ _ _ Hactuals Ha) as (arg & Harg & Hstatic).
    unfold compare_at.
    rewrite (subscript_Some _ _ _ Harg), bind_Return, Hstatic, bind_Return.
    rewrite (subscript_Some _ _ _ Hp), bind_Return.
    rewrite (Hbefore j a p Hj Ha Hp). reflexivity.
  - destruct (Forall2_lookup_r _ _ _ _ _ Hactuals Hactual) as (arg & Harg & Hstatic).
    unfold compare_at.
    rewrite (subscript_Some _ _ _ Harg), bind_Return, Hstatic, bind_Return.
    rewrite (subscript_Some _ _ _ Hexpected), bind_Return.
    rewrite Hfails. exact Hmismatch.
Qed.

(** The comparison loop returns when every index passes. *)
Lemma compare_all_match args expected_arg_types actuals mismatch :
  mapM static_type args = Return actuals ->
  length expected_arg_types = length args ->
  (forall j a p, actuals !! j = Some a -> expected_arg_types !! j = Some p ->
                 is_subtype_of a p = true) ->
  for_each (compare_at args expected_arg_types mismatch)
    (seq 0 (length expected_arg_types)) = Return tt.
Proof.
  intros Hactuals Hlength Hall.
  apply mapM_Return in Hactuals.
  pose proof (Forall2_length _ _ _ Hactuals) as Hlen.
  apply for_range_all_return. intros j Hj.
  destruct (lookup_lt_is_Some_2 actuals j) as [a Ha]; [lia|].
  destruct (lookup_lt_is_Some_2 expected_arg_types j) as [p Hp]; [lia|].
  destruct (Forall2_lookup_r _ _ _ _ _ Hactuals Ha) as (arg & Harg & Hstatic).
  unfold compare_at.
  rewrite (subscript_Some _ _ _ Harg), bind_Return, Hstatic, bind_Return.
  rewrite (subscript_Some _ _ _ Hp), bind_Return.
  rewrite (Hall j a p Ha Hp). reflexivity.
Qed.

End CheckerFacts.

(** ** The checker on the store *)

Section StoreFacts.
Context {T : Type} `{TypeModel T}.

(** *** Reading only *)

Lemma reads_only_unit {A : Type} (a : A) : reads_only (T:=T) (unit_M a).
Proof. intros s. reflexivity. Qed.

Lemma reads_only_lift {A : Type} (r : result A) : reads_only (T:=T) (lift r).
Proof. intros s. reflexivity. Qed.

Lemma reads_only_abandon {A : Type} : reads_only (@abandon T A).
Proof. intros s. reflexivity. Qed.

Lemma reads_only_load r : reads_only (T:=T) (load r).
Proof. intros s. unfold load. destruct (s !! r); reflexivity. Qed.

Lemma reads_only_bind {A B : Type} (m : M T A) (k : A -> M T B) :
  reads_only m -> (forall a, reads_only (k a)) -> reads_only (bind_M m k).
Proof.
  intros Hm Hk s. unfold bind_M. specialize (Hm s).
  destruct (m s) as [[[a|e]|] s']; cbn in Hm; subst s'.
  - apply Hk.
  - reflexivity.
  - reflexivity.
Qed.

Lemma reads_only_if_not b message : reads_only (T:=T) (if_not b message).
Proof. unfold if_not. destruct (negb b); [apply reads_only_lift|apply reads_only_unit]. Qed.

Lemma reads_only_for_each {A : Type} (body : A -> M T unit) xs :
  (forall x, reads_only (body x)) -> reads_only (for_each_M body xs).
Proof.
  intros Hbody. induction xs as [|x xs IH].
  - apply reads_only_unit.
  - apply reads_only_bind; [apply Hbody|intros _; exact IH].
Qed.

Lemma reads_only_map {A B : Type} (f : A -> M T B) xs :
  (forall x, reads_only (f x)) -> reads_only (map_M f xs).
Proof.
  intros Hf. induction xs as [|x xs IH].
  - apply reads_only_unit.
  - apply reads_only_bind; [apply Hf|intros y].
    apply reads_only_bind; [exact IH|intros ys; apply reads_only_unit].
Qed.

(** Creating an object is not reading only: the notion tells them apart. *)
Lemma new_writes (o : Obj T) : ~ reads_only (new o).
Proof.
  intros Hnew. specialize (Hnew []). cbn in Hnew. discriminate.
Qed.

Create HintDb reads.
#[local] Hint Resolve reads_only_unit reads_only_lift reads_only_abandon
  reads_only_load reads_only_if_not : reads.

Ltac reads :=
  repeat first
    [ progress auto with reads
    | apply reads_only_bind; [|intros ?]
    | apply reads_only_for_each; intros ?
    | apply reads_only_map; intros ?
    | match goal with |- @reads_only _ _ (if ?b then _ else _) => destruct b end
    | match goal with |- @reads_only _ _ (match ?o with VariableObject _ _ => _ | _ => _ end) =>
        destruct o
      end ].

Lemma static_type_at_reads_only depth self : reads_only (static_type_at depth self).
Proof.
  revert self. induction depth as [|depth IH]; intros self; cbn [static_type_at].
  - apply reads_only_abandon.
  - reads.
Qed.

Lemma check_types_at_reads_only depth self : reads_only (check_types_at depth self).
Proof.
  pose proof static_type_at_reads_only as Hstatic.
  revert self. induction depth as [|depth IH]; intros self; cbn [check_types_at].
  - apply reads_only_abandon.
  - reads.
Qed.

(** *** Agreement with the checker on trees *)

Lemma agrees_lift {A : Type} (r : result A) s : agrees (T:=T) (lift r) s r.
Proof. reflexivity. Qed.

Lemma agrees_bind {A B : Type} (m : M T A) (k : A -> M T B) s r (f : A -> result B) :
  agrees m s r ->
  (forall a, r = Return a -> agrees (k a) s (f a)) ->
  agrees (bind_M m k) s (r ≫= f).
Proof.
  unfold agrees, bind_M. intros -> Hk.
  destruct r as [a|e]; [|reflexivity]. apply Hk. reflexivity.
Qed.

Lemma agrees_if_not b message s :
  agrees (T:=T) (if_not b message) s
    (if negb b then Raise (JavaTypeError message) else Return tt).
Proof. unfold if_not. destruct (negb b); reflexivity. Qed.

Lemma agrees_for_each {A B : Type} (bodyM : B -> M T unit) (body : A -> result unit)
    s xs ys :
  Forall2 (fun x y => agrees (bodyM y) s (body x)) xs ys ->
  agrees (for_each_M bodyM ys) s (for_each body xs).
Proof.
  induction 1 as [|x y xs ys Hxy _ IH].
  - reflexivity.
  - rewrite for_each_cons. cbn [for_each_M].
    apply agrees_bind; [exact Hxy|intros _ _; exact IH].
Qed.

Lemma agrees_for_range (bodyM : nat -> M T unit) (body : nat -> result unit) s xs :
  (forall i, agrees (bodyM i) s (body i)) ->
  agrees (for_each_M bodyM xs) s (for_each body xs).
Proof.
  intros Hbody. apply agrees_for_each.
  induction xs; constructor; [apply Hbody|assumption].
Qed.

Lemma agrees_map {A B C : Type} (fM : B -> M T C) (f : A -> result C) s xs ys :
  Forall2 (fun x y => agrees (fM y) s (f x)) xs ys ->
  agrees (map_M fM ys) s (mapM f xs).
Proof.
  induction 1 as [|x y xs ys Hxy _ IH].
  - reflexivity.
  - cbn [map_M mapM].
    apply agrees_bind; [exact Hxy|intros c _].
    apply agrees_bind; [exact IH|intros cs _]. reflexivity.
Qed.

Lemma agrees_subscript {A B C : Type} (R : A -> B -> Prop)
    (k : B -> M T C) (f : A -> result C) s xs ys i :
  Forall2 R xs ys ->
  (forall x y, R x y -> agrees (k y) s (f x)) ->
  agrees (bind_M (lift (subscript ys i)) k) s (subscript xs i ≫= f).
Proof.
  intros Hxs Hk. unfold agrees, bind_M, lift, subscript.
  destruct (xs !! i) as [x|] eqn:Hx.
  - destruct (Forall2_lookup_l _ _ _ _ _ Hxs Hx) as (y & -> & Hxy).
    apply Hk. exact Hxy.
  - apply lookup_ge_None in Hx. rewrite (Forall2_length _ _ _ Hxs) in Hx.
    apply lookup_ge_None in Hx. rewrite Hx. reflexivity.
Qed.

Lemma bind_load {A : Type} (k : Obj T -> M T A) s r o :
  s !! r = Some o -> bind_M (load r) k s = k o s.
Proof. intros Hr. unfold bind_M, load. rewrite Hr. reflexivity. Qed.

Lemma pairwise_Forall2 {A B : Type} (R : A -> B -> Prop) xs ys :
  pairwise R xs ys <-> Forall2 R xs ys.
Proof.
  revert ys. induction xs as [|x xs IH]; intros [|y ys]; cbn [pairwise].
  - split; [constructor|trivial].
  - split; [intros []|intros Hnil; inversion Hnil].
  - split; [intros []|intros Hnil; inversion Hnil].
  - rewrite IH. split.
    + intros [Hxy Hrest]. constructor; assumption.
    + intros Hcons. inversion Hcons; subst. split; assumption.
Qed.

Lemma height_in_args a (args : list (Expression T)) :
  a ∈ args -> height a <= tallest args.
Proof.
  unfold tallest. induction 1 as [a args|a b args _ IH]; cbn [foldr]; lia.
Qed.

Lemma static_type_at_agrees e : forall s self depth,
  represents s self e -> height e <= depth ->
  agrees (static_type_at depth self) s (static_type e).
Proof.
  induction e as [name t|value t|receiver IH method_name args|t args];
    intros s self depth Hrep Hheight;
    (destruct depth as [|depth]; [cbn [height] in Hheight; lia|]);
    cbn [represents] in Hrep; unfold agrees; cbn [static_type_at static_type].
  - rewrite (bind_load _ _ _ _ Hrep). reflexivity.
  - rewrite (bind_load _ _ _ _ Hrep). reflexivity.
  - destruct Hrep as (r' & rs & Hself & Hreceiver & _).
    rewrite (bind_load _ _ _ _ Hself). cbn beta iota.
    apply agrees_bind; [apply IH; [exact Hreceiver|cbn [height] in Hheight; lia]|].
    intros receiver_type _.
    apply agrees_bind; [apply agrees_lift|]. intros m _. reflexivity.
  - destruct Hrep as (rs & Hself & _).
    rewrite (bind_load _ _ _ _ Hself). reflexivity.
Qed.

(** The references of the arguments, with what the induction gives for
    each. *)
Lemma arguments_related (P : Expression T -> ref -> Prop) s depth args rs :
  Forall (fun a => forall self, represents s self a -> height a <= depth -> P a self) args ->
  pairwise (fun a r => represents s r a) args rs ->
  tallest args <= depth ->
  Forall2 P args rs.
Proof.
  intros HP Hrep Hheight. apply pairwise_Forall2 in Hrep.
  induction Hrep as [|a r args rs Ha _ IH]; constructor.
  - apply (Forall_inv HP); [exact Ha|].
    pose proof (height_in_args a (a :: args)) as Hin.
    specialize (Hin ltac:(left)). lia.
  - apply IH; [exact (Forall_inv_tail HP)|].
    unfold tallest in *. cbn [foldr] in Hheight. lia.
Qed.

(** *** The store that the constructors build *)

Lemma arguments_extend (s s' : store T) args rs :
  Forall (fun a => forall r, represents s r a -> represents (s ++ s') r a) args ->
  pairwise (fun a r => represents s r a) args rs ->
  pairwise (fun a r => represents (s ++ s') r a) args rs.
Proof.
  intros Hargs. revert rs.
  induction Hargs as [|a args Ha _ IH]; intros [|r rs]; cbn [pairwise]; try tauto.
  intros [Hr Hrs]. split; [apply Ha; exact Hr|apply IH; exact Hrs].
Qed.

(** Objects created later leave a tree in the store as it is. *)
Lemma represents_extend e : forall (s s' : store T) r,
  represents s r e -> represents (s ++ s') r e.
Proof.
  induction e as [name t|value t|receiver method_name args IH IHargs|t args IHargs]
    using Expression_rect_args;
    intros s s' r Hrep; cbn [represents] in *.
  - apply lookup_app_l_Some. exact Hrep.
  - apply lookup_app_l_Some. exact Hrep.
  - destruct Hrep as (r' & rs & Hself & Hreceiver & Hargs).
    exists r', rs. split; [apply lookup_app_l_Some; exact Hself|].
    split; [apply IH; exact Hreceiver|].
    apply arguments_extend; [|exact Hargs].
    apply (Forall_impl _ _ _ IHargs). intros a Ha r0. apply Ha.
  - destruct Hrep as (rs & Hself & Hargs).
    exists rs. split; [apply lookup_app_l_Some; exact Hself|].
    apply arguments_extend; [|exact Hargs].
    apply (Forall_impl _ _ _ IHargs). intros a Ha r0. apply Ha.
Qed.

Lemma new_spec (o : Obj T) (s : store T) :
  new o s = (Some (Return (length s)), s ++ [o]) /\ (s ++ [o]) !! length s = Some o.
Proof. split; [reflexivity|]. apply list_lookup_middle. reflexivity. Qed.

Lemma build_arguments args :
  Forall (fun a => forall s0 : store T, exists self s1,
            build a s0 = (Some (Return self), s0 ++ s1)
            /\ represents (s0 ++ s1) self a) args ->
  forall s0 : store T, exists rs s1,
    map_M build args s0 = (Some (Return rs), s0 ++ s1)
    /\ pairwise (fun a r => represents (s0 ++ s1) r a) args rs.
Proof.
  induction 1 as [|a args Ha Hargs IH]; intros s0.
  - exists [], []. rewrite app_nil_r. split; [reflexivity|exact I].
  - destruct (Ha s0) as (r & s1 & Hbuild & Hrep).
    destruct (IH (s0 ++ s1)) as (rs & s2 & Hbuilds & Hreps).
    exists (r :: rs), (s1 ++ s2). rewrite app_assoc.
    cbn [map_M]. unfold bind_M at 1. rewrite Hbuild.
    unfold bind_M at 1. rewrite Hbuilds.
    split; [reflexivity|]. cbn [pairwise].
    split; [apply represents_extend; exact Hrep|exact Hreps].
Qed.

(** A tree built by the constructors is in the store, whatever was there. *)
Lemma build_represents e : forall s0 : store T, exists self s1,
  build e s0 = (Some (Return self), s0 ++ s1) /\ represents (s0 ++ s1) self e.
Proof.
  induction e as [name t|value t|receiver method_name args IH IHargs|t args IHargs]
    using Expression_rect_args; intros s0; cbn [build represents].
  - exists (length s0), [VariableObject name t]. apply new_spec.
  - exists (length s0), [LiteralObject value t]. apply new_spec.
  - destruct (IH s0) as (r' & s1 & Hbuild & Hrep).
    destruct (build_arguments args IHargs (s0 ++ s1)) as (rs & s2 & Hbuilds & Hreps).
    exists (length ((s0 ++ s1) ++ s2)), (s1 ++ s2 ++ [MethodCallObject r' method_name rs]).
    unfold bind_M at 1. rewrite Hbuild. unfold bind_M at 1. rewrite Hbuilds.
    rewrite !app_assoc.
    destruct (new_spec (MethodCallObject r' method_name rs) ((s0 ++ s1) ++ s2))
      as [Hnew Hself].
    split; [exact Hnew|]. exists r', rs. split; [exact Hself|].
    split.
    + rewrite <- app_assoc. apply represents_extend. exact Hrep.
    + apply arguments_extend; [|exact Hreps].
      apply Forall_forall. intros a _ r0. apply represents_extend.
  - destruct (build_arguments args IHargs s0) as (rs & s1 & Hbuilds & Hreps).
    exists (length (s0 ++ s1)), (s1 ++ [ConstructorCallObject t rs]).
    unfold bind_M at 1. rewrite Hbuilds. rewrite !app_assoc.
    destruct (new_spec (ConstructorCallObject t rs) (s0 ++ s1)) as [Hnew Hself].
    split; [exact Hnew|]. exists rs. split; [exact Hself|].
    apply arguments_extend; [|exact Hreps].
    apply Forall_forall. intros a _ r0. apply represents_extend.
Qed.

Lemma static_types_at_agree s depth args rs :
  pairwise (fun a r => represents s r a) args rs ->
  tallest args <= depth ->
  Forall2 (fun a r => agrees (static_type_at depth r) s (static_type a)) args rs.
Proof.
  apply arguments_related, Forall_forall.
  intros a _ self Hrep Hheight. apply static_type_at_agrees; assumption.
Qed.

(** The comparison of one argument with its declared type. *)
Lemma compare_at_agrees s depth args rs expected_arg_types mismatchM mismatch i :
  pairwise (fun a r => represents s r a) args rs ->
  tallest args <= depth ->
  agrees mismatchM s mismatch ->
  agrees
    (bind_M (lift (subscript rs i)) (fun arg =>
     bind_M (static_type_at depth arg) (fun actual =>
     bind_M (lift (subscript expected_arg_types i)) (fun expected =>
     if negb (is_subtype_of actual expected) then mismatchM else unit_M tt))))
    s (compare_at args expected_arg_types mismatch i).
Proof.
  intros Hrep Hheight Hmismatch. unfold compare_at.
  apply agrees_subscript with (1 := static_types_at_agree s depth args rs Hrep Hheight).
  intros arg r Harg. cbn beta in Harg.
  apply agrees_bind; [exact Harg|intros actual _].
  apply agrees_bind; [apply agrees_lift|intros expected _].
  destruct (negb (is_subtype_of actual expected)); [exact Hmismatch|reflexivity].
Qed.

Lemma check_types_at_agrees e : forall s self depth,
  represents s self e -> height e <= depth ->
  agrees (check_types_at depth self) s (check_types e).
Proof.
  induction e as [name t|value t|receiver method_name args IH IHargs|t args IHargs]
    using Expression_rect_args;
    intros s self depth Hrep Hheight;
    (destruct depth as [|depth]; [cbn [height] in Hheight; lia|]);
    cbn [represents] in Hrep; unfold agrees; cbn [check_types_at].
  - rewrite (bind_load _ _ _ _ Hrep). reflexivity.
  - rewrite (bind_load _ _ _ _ Hrep). reflexivity.
  - destruct Hrep as (r' & rs & Hself & Hreceiver & Hargs).
    cbn [height] in Hheight. fold (tallest args) in Hheight.
    assert (Hrt : agrees (static_type_at depth r') s (static_type receiver))
      by (apply static_type_at_agrees; [exact Hreceiver|lia]).
    assert (Hts : Forall2 (fun a r => agrees (static_type_at depth r) s (static_type a)) args rs)
      by (apply static_types_at_agree; [exact Hargs|lia]).
    rewrite (bind_load _ _ _ _ Hself). cbn beta iota.
    rewrite check_types_MethodCall. unfold validate_method_call.
    apply agrees_bind; [apply IH; [exact Hreceiver|lia]|intros _ _].
    apply agrees_bind.
    { apply agrees_for_each.
      apply arguments_related with (s := s) (depth := depth); [|exact Hargs|lia].
      apply (Forall_impl _ _ _ IHargs). intros a Ha r Hr Hh. apply Ha; assumption. }
    intros _ _.
    apply agrees_bind; [exact Hrt|intros receiver_type _].
    apply agrees_bind; [apply agrees_if_not|intros _ _].
    apply agrees_bind; [apply agrees_lift|intros m _].
    apply pairwise_Forall2 in Hargs as Hlength. apply Forall2_length in Hlength.
    rewrite <- Hlength.
    apply agrees_bind; [apply agrees_if_not|intros _ _].
    apply agrees_for_range. intros i.
    apply compare_at_agrees; [exact Hargs|lia|].
    apply agrees_bind; [exact Hrt|intros receiver_type' _].
    apply agrees_bind; [apply agrees_map; exact Hts|intros actuals _].
    reflexivity.
  - destruct Hrep as (rs & Hself & Hargs).
    cbn [height] in Hheight. fold (tallest args) in Hheight.
    assert (Hts : Forall2 (fun a r => agrees (static_type_at depth r) s (static_type a)) args rs)
      by (apply static_types_at_agree; [exact Hargs|lia]).
    rewrite (bind_load _ _ _ _ Hself). cbn beta iota.
    rewrite check_types_ConstructorCall. unfold validate_constructor_call.
    apply agrees_bind.
    { apply agrees_for_each.
      apply arguments_related with (s := s) (depth := depth); [|exact Hargs|lia].
      apply (Forall_impl _ _ _ IHargs). intros a Ha r Hr Hh. apply Ha; assumption. }
    intros _ _.
    apply agrees_bind; [apply agrees_if_not|intros _ _].
    apply agrees_bind; [apply agrees_lift|intros ctor _].
    apply pairwise_Forall2 in Hargs as Hlength. apply Forall2_length in Hlength.
    rewrite <- Hlength.
    apply agrees_bind; [apply agrees_if_not|intros _ _].
    apply agrees_for_range. intros i.
    apply compare_at_agrees; [exact Hargs|lia|].
    apply agrees_bind; [apply agrees_map; exact Hts|intros actuals _].
    reflexivity.
Qed.

End StoreFacts.

(** ** What the checker guarantees *)

Section Guarantees.
Context {T : Type} `{TypeModel T}.

Abbreviation checked := (Forall (fun a : Expression T => check_types a = Return tt)).

(** A method call whose children are checked does what remains. *)
Lemma method_call_after_children receiver method_name args :
  check_types receiver = Return tt ->
  checked args ->
  check_types (MethodCall receiver method_name args)
  = validate_method_call receiver method_name args.
Proof.
  intros Hreceiver Hargs.
  rewrite check_types_MethodCall, Hreceiver, bind_Return.
  rewrite (for_each_all_return _ _ Hargs). reflexivity.
Qed.

Lemma constructor_call_after_children instantiated_type args :
  checked args ->
  check_types (ConstructorCall instantiated_type args)
  = validate_constructor_call instantiated_type args.
Proof.
  intros Hargs.
  rewrite check_types_ConstructorCall, (for_each_all_return _ _ Hargs).
  reflexivity.
Qed.

Lemma length_differs (m n : nat) : m <> n -> negb (m =? n)%nat = true.
Proof. intros Hne. apply negb_true_iff, Nat.eqb_neq. exact Hne. Qed.

Lemma length_agrees (m n : nat) : m = n -> negb (m =? n)%nat = false.
Proof. intros ->. rewrite Nat.eqb_refl. reflexivity. Qed.

(** A call whose children are checked and whose arguments all fit passes. *)
Lemma well_typed_calls_pass :
  (forall receiver method_name args receiver_type method actuals,
      check_types receiver = Return tt ->
      checked args ->
      static_type receiver = Return receiver_type ->
      is_subtype_of receiver_type object = true ->
      find_method receiver_type method_name = Some method ->
      length (Method.argument_types method) = length args ->
      mapM static_type args = Return actuals ->
      (forall j a p, actuals !! j = Some a ->
                     Method.argument_types method !! j = Some p ->
                     is_subtype_of a p = true) ->
      check_types (MethodCall receiver method_name args) = Return tt)
  /\ (forall instantiated_type args ctor actuals,
      checked args ->
      is_instantiable instantiated_type = true ->
      constructor instantiated_type = Some ctor ->
      length (Constructor.argument_types ctor) = length args ->
      mapM static_type args = Return actuals ->
      (forall j a p, actuals !! j = Some a ->
                     Constructor.argument_types ctor !! j = Some p ->
                     is_subtype_of a p = true) ->
      check_types (ConstructorCall instantiated_type args) = Return tt).
Proof.
  split.
  - intros receiver method_name args receiver_type method actuals
      Hreceiver Hargs Hrt Hroot Hmethod Hlength Hactuals Hall.
    rewrite (method_call_after_children _ _ _ Hreceiver Hargs).
    unfold validate_method_call.
    rewrite Hrt, bind_Return, Hroot. cbn [negb]. rewrite bind_Return.
    rewrite (method_named_Some _ _ _ Hmethod), bind_Return.
    rewrite (length_agrees _ _ Hlength), bind_Return.
    apply (compare_all_match args _ actuals); assumption.
  - intros instantiated_type args ctor actuals Hargs Hinst Hctor Hlength Hactuals Hall.
    rewrite (constructor_call_after_children _ _ Hargs).
    unfold validate_constructor_call, get_constructor.
    rewrite Hinst. cbn [negb]. rewrite bind_Return, Hctor, bind_Return.
    rewrite (length_agrees _ _ Hlength), bind_Return.
    apply (compare_all_match args _ actuals); assumption.
Qed.

(** C1: a [MethodCall] whose receiver and arguments pass their own checks
    and whose arity check passes (the receiver type is below the root, the
    method resolves, the counts agree) raises, at the first index [i] whose
    argument type is not a subtype of the declared parameter type, the type
    error whose message names the receiver type, the method name, all the
    expected parameter types and the static types of all the arguments.
    Nothing is asked of the indices after [i]: they are not looked at.  The
    same holds for a [ConstructorCall], with the instantiated type. *)
Theorem first_mismatch_is_reported :
  (forall receiver method_name args receiver_type method actuals i actual expected,
      check_types receiver = Return tt ->
      checked args ->
      static_type receiver = Return receiver_type ->
      is_subtype_of receiver_type object = true ->
      find_method receiver_type method_name = Some method ->
      length (Method.argument_types method) = length args ->
      mapM static_type args = Return actuals ->
      actuals !! i = Some actual ->
      Method.argument_types method !! i = Some expected ->
      is_subtype_of actual expected = false ->
      (forall j a p, j < i -> actuals !! j = Some a ->
                     Method.argument_types method !! j = Some p ->
                     is_subtype_of a p = true) ->
      check_types (MethodCall receiver method_name args)
      = Raise (JavaTypeError
          (method_mismatch_message receiver_type method_name
             (Method.argument_types method) actuals)))
  /\ (forall instantiated_type args ctor actuals i actual expected,
      checked args ->
      is_instantiable instantiated_type = true ->
      constructor instantiated_type = Some ctor ->
      length (Constructor.argument_types ctor) = length args ->
      mapM static_type args = Return actuals ->
      actuals !! i = Some actual ->
      Constructor.argument_types ctor !! i = Some expected ->
      is_subtype_of actual expected = false ->
      (forall j a p, j < i -> actuals !! j = Some a ->
                     Constructor.argument_types ctor !! j = Some p ->
                     is_subtype_of a p = true) ->
      check_types (ConstructorCall instantiated_type args)
      = Raise (JavaTypeError
          (constructor_mismatch_message instantiated_type
             (Constructor.argument_types ctor) actuals))).
Proof.
  split.
  - intros receiver method_name args receiver_type method actuals i actual expected
      Hreceiver Hargs Hrt Hroot Hmethod Hlength Hactuals Hactual Hexpected Hfails Hbefore.
    rewrite (method_call_after_children _ _ _ Hreceiver Hargs).
    unfold validate_method_call.
    rewrite Hrt, bind_Return, Hroot. cbn [negb]. rewrite bind_Return.
    rewrite (method_named_Some _ _ _ Hmethod), bind_Return.
    rewrite (length_agrees _ _ Hlength), bind_Return.
    apply (compare_first_mismatch args _ actuals _ _ i actual expected Hactuals);
      [|assumption..].
    rewrite bind_Return, Hactuals. reflexivity.
  - intros instantiated_type args ctor actuals i actual expected
      Hargs Hinst Hctor Hlength Hactuals Hactual Hexpected Hfails Hbefore.
    rewrite (constructor_call_after_children _ _ Hargs).
    unfold validate_constructor_call, get_constructor.
    rewrite Hinst. cbn [negb]. rewrite bind_Return, Hctor, bind_Return.
    rewrite (length_agrees _ _ Hlength), bind_Return.
    apply (compare_first_mismatch args _ actuals _ _ i actual expected Hactuals);
      [|assumption..].
    rewrite Hactuals. reflexivity.
Qed.

(** C2, amended: a [MethodCall] whose receiver and arguments pass their own
    checks, whose receiver type passes the root-reference-type check and
    which names a method found nowhere on the chain of that type, raises
    the type error of [method_named], at the resolution step: whatever the
    number and the types of the arguments. *)
Theorem unresolved_method_is_a_type_error
    receiver method_name args receiver_type :
  check_types receiver = Return tt ->
  checked args ->
  static_type receiver = Return receiver_type ->
  is_subtype_of receiver_type object = true ->
  find_method receiver_type method_name = None ->
  check_types (MethodCall receiver method_name args)
  = Raise (JavaTypeError (no_such_method receiver_type method_name)).
Proof.
  intros Hreceiver Hargs Hrt Hroot Hmethod.
  rewrite (method_call_after_children _ _ _ Hreceiver Hargs).
  unfold validate_method_call.
  rewrite Hrt, bind_Return, Hroot. cbn [negb]. rewrite bind_Return.
  rewrite (method_named_None _ _ Hmethod). reflexivity.
Qed.

(** C3: [check_types] on a [MethodCall] checks the receiver, then the
    arguments from left to right, and only then validates the call itself;
    on a [ConstructorCall] it checks the arguments in order first.  So the
    exception of the first child that fails is the exception of the call,
    whatever the call itself and the children after it are. *)
Theorem children_are_checked_first :
  (forall receiver method_name args,
      check_types (MethodCall receiver method_name args)
      = (check_types receiver;;
         for_each check_types args;;
         validate_method_call receiver method_name args))
  /\ (forall instantiated_type args,
      check_types (ConstructorCall instantiated_type args)
      = (for_each check_types args;;
         validate_constructor_call instantiated_type args))
  /\ (forall receiver method_name args e,
      check_types receiver = Raise e ->
      check_types (MethodCall receiver method_name args) = Raise e)
  /\ (forall receiver method_name before arg after e,
      check_types receiver = Return tt ->
      checked before ->
      check_types arg = Raise e ->
      check_types (MethodCall receiver method_name (before ++ arg :: after)) = Raise e)
  /\ (forall instantiated_type before arg after e,
      checked before ->
      check_types arg = Raise e ->
      check_types (ConstructorCall instantiated_type (before ++ arg :: after)) = Raise e).
Proof.
  split; [|split; [|split; [|split]]].
  - intros. reflexivity.
  - intros. reflexivity.
  - intros receiver method_name args e Hreceiver.
    rewrite check_types_MethodCall, Hreceiver. reflexivity.
  - intros receiver method_name before arg after e Hreceiver Hbefore Harg.
    rewrite check_types_MethodCall, Hreceiver, bind_Return.
    rewrite (for_each_first_raise _ _ _ _ _ Hbefore Harg). reflexivity.
  - intros instantiated_type before arg after e Hbefore Harg.
    rewrite check_types_ConstructorCall.
    rewrite (for_each_first_raise _ _ _ _ _ Hbefore Harg). reflexivity.
Qed.

(** C4, amended: a [MethodCall] whose children pass their own checks, whose
    receiver type passes the root-reference-type check and resolves the
    method, and a [ConstructorCall] whose arguments pass their own checks
    and whose type is instantiable, raise the arity error with the expected
    and the actual count when the counts differ: whatever the types of the
    arguments, which are not compared. *)
Theorem arity_mismatch_is_reported :
  (forall receiver method_name args receiver_type method,
      check_types receiver = Return tt ->
      checked args ->
      static_type receiver = Return receiver_type ->
      is_subtype_of receiver_type object = true ->
      find_method receiver_type method_name = Some method ->
      length (Method.argument_types method) <> length args ->
      check_types (MethodCall receiver method_name args)
      = Raise (JavaTypeError
          (method_arity_message receiver_type method_name
             (length (Method.argument_types method)) (length args))))
  /\ (forall instantiated_type args ctor,
      checked args ->
      is_instantiable instantiated_type = true ->
      constructor instantiated_type = Some ctor ->
      length (Constructor.argument_types ctor) <> length args ->
      check_types (ConstructorCall instantiated_type args)
      = Raise (JavaTypeError
          (constructor_arity_message instantiated_type
             (length (Constructor.argument_types ctor)) (length args)))).
Proof.
  split.
  - intros receiver method_name args receiver_type method
      Hreceiver Hargs Hrt Hroot Hmethod Hlength.
    rewrite (method_call_after_children _ _ _ Hreceiver Hargs).
    unfold validate_method_call.
    rewrite Hrt, bind_Return, Hroot. cbn [negb]. rewrite bind_Return.
    rewrite (method_named_Some _ _ _ Hmethod), bind_Return.
    rewrite (length_differs _ _ Hlength). reflexivity.
  - intros instantiated_type args ctor Hargs Hinst Hctor Hlength.
    rewrite (constructor_call_after_children _ _ Hargs).
    unfold validate_constructor_call, get_constructor.
    rewrite Hinst. cbn [negb]. rewrite bind_Return, Hctor, bind_Return.
    rewrite (length_differs _ _ Hlength). reflexivity.
Qed.

(** C5, amended: a [MethodCall] whose receiver and arguments pass their own
    checks and whose receiver's static type is not a subtype of the root
    reference type raises the type error saying that this type does not
    have methods: whether or not the method resolves, whatever the number
    and the types of the arguments. *)
Theorem receiver_without_methods_is_reported
    receiver method_name args receiver_type :
  check_types receiver = Return tt ->
  checked args ->
  static_type receiver = Return receiver_type ->
  is_subtype_of receiver_type object = false ->
  check_types (MethodCall receiver method_name args)
  = Raise (JavaTypeError (no_methods_message receiver_type)).
Proof.
  intros Hreceiver Hargs Hrt Hroot.
  rewrite (method_call_after_children _ _ _ Hreceiver Hargs).
  unfold validate_method_call.
  rewrite Hrt, bind_Return, Hroot. reflexivity.
Qed.

(** C6, amended: a [ConstructorCall] whose arguments pass their own checks
    and whose type is not instantiable raises the type error saying that
    this type is not instantiable: whatever the constructor signature, the
    number and the types of the arguments. *)
Theorem not_instantiable_is_reported instantiated_type args :
  checked args ->
  is_instantiable instantiated_type = false ->
  check_types (ConstructorCall instantiated_type args)
  = Raise (JavaTypeError (not_instantiable_message instantiated_type)).
Proof.
  intros Hargs Hinst.
  rewrite (constructor_call_after_children _ _ Hargs).
  unfold validate_constructor_call. rewrite Hinst. reflexivity.
Qed.

(** C7: [static_type] of a [Variable] is its declared type, of a [Literal]
    (the null literal too) its type, of a [MethodCall] the return type of
    the method with that name of the static type of the receiver, and of a
    [ConstructorCall] the instantiated type. *)
Theorem static_type_of_each_variant :
  (forall name declared_type,
      static_type (Variable_ name declared_type) = Return declared_type)
  /\ (forall value type, static_type (Literal value type) = Return type)
  /\ static_type NullLiteral = Return null
  /\ (forall receiver method_name args,
      static_type (MethodCall receiver method_name args)
      = (receiver_type ← static_type receiver;
         method ← method_named receiver_type method_name;
         Return (Method.return_type method)))
  /\ (forall receiver method_name args receiver_type method,
      static_type receiver = Return receiver_type ->
      method_named receiver_type method_name = Return method ->
      static_type (MethodCall receiver method_name args)
      = Return (Method.return_type method))
  /\ (forall instantiated_type args,
      static_type (ConstructorCall instantiated_type args) = Return instantiated_type).
Proof.
  repeat split; try reflexivity.
  intros receiver method_name args receiver_type method Hrt Hmethod.
  cbn [static_type]. rewrite Hrt, bind_Return, Hmethod. reflexivity.
Qed.

(** C8: [check_types] returns on every [Variable] and every [Literal],
    whatever the name, the value and the type; the null literal is the
    [Literal] of the null type and goes the same way. *)
Theorem leaves_always_pass :
  (forall name declared_type, check_types (Variable_ name declared_type) = Return tt)
  /\ (forall value type, check_types (Literal value type) = Return tt)
  /\ NullLiteral = Literal "null" null
  /\ check_types NullLiteral = Return tt.
Proof. repeat split. Qed.

(** Once the counts agree, the comparison loop returns or raises the
    mismatch: nothing else. *)
Lemma compare_outcome args expected_arg_types actuals mismatch e :
  mapM static_type args = Return actuals ->
  length expected_arg_types = length args ->
  mismatch = Raise e ->
  for_each (compare_at args expected_arg_types mismatch)
    (seq 0 (length expected_arg_types)) = Return tt
  \/ for_each (compare_at args expected_arg_types mismatch)
       (seq 0 (length expected_arg_types)) = Raise e.
Proof.
  intros Hactuals Hlength Hmismatch.
  destruct (for_each_cases (compare_at args expected_arg_types mismatch)
              (seq 0 (length expected_arg_types)))
    as [Hreturn|(before & i & after & e' & Hseq & _ & Hi & Hraise)];
    [left; exact Hreturn|right].
  rewrite Hraise. f_equal.
  assert (Hin : i ∈ seq 0 (length expected_arg_types))
    by (rewrite Hseq; apply elem_of_app; right; left).
  apply list_elem_of_In, in_seq in Hin.
  apply mapM_Return in Hactuals.
  destruct (lookup_lt_is_Some_2 args i) as [arg Harg]; [lia|].
  destruct (lookup_lt_is_Some_2 expected_arg_types i) as [p Hp]; [lia|].
  destruct (Forall2_lookup_l _ _ _ _ _ Hactuals Harg) as (actual & _ & Hstatic).
  unfold compare_at in Hi.
  rewrite (subscript_Some _ _ _ Harg), bind_Return, Hstatic, bind_Return in Hi.
  rewrite (subscript_Some _ _ _ Hp), bind_Return in Hi.
  destruct (negb (is_subtype_of actual p)); [|discriminate].
  congruence.
Qed.

(** C10, amended: in a [ConstructorCall] whose arguments pass their own
    checks, the constructor signature is read only after the instantiability
    check has passed.  On a type that is not instantiable the call raises
    the "not instantiable" type error whatever [constructor] holds, also
    nothing at all; and the call ends with the exception of a missing
    attribute only on a type that is instantiable and has no constructor
    signature. *)
Theorem constructor_is_read_after_instantiability instantiated_type args :
  checked args ->
  (is_instantiable instantiated_type = false ->
     check_types (ConstructorCall instantiated_type args)
     = Raise (JavaTypeError (not_instantiable_message instantiated_type)))
  /\ (forall attribute,
        check_types (ConstructorCall instantiated_type args)
        = Raise (AttributeError attribute) ->
        is_instantiable instantiated_type = true
        /\ constructor instantiated_type = None).
Proof.
  intros Hargs.
  rewrite (constructor_call_after_children _ _ Hargs).
  unfold validate_constructor_call, get_constructor.
  destruct (is_instantiable instantiated_type); cbn [negb].
  - split; [discriminate|]. intros attribute. rewrite bind_Return.
    destruct (constructor instantiated_type) as [ctor|]; [|intros _; split; reflexivity].
    rewrite bind_Return.
    destruct (decide (length (Constructor.argument_types ctor) = length args))
      as [Hlength|Hlength].
    + rewrite (length_agrees _ _ Hlength), bind_Return.
      destruct (static_types_of_checked args Hargs) as [actuals Hactuals].
      rewrite Hactuals, bind_Return.
      edestruct compare_outcome as [-> | ->]; [exact Hactuals|exact Hlength|reflexivity|..];
        discriminate.
    + rewrite (length_differs _ _ Hlength). discriminate.
  - split; [reflexivity|]. intros attribute. discriminate.
Qed.

End Guarantees.

(** ** Checking reads, and changes nothing *)

Section ReadOnly.
Context {T : Type} `{TypeModel T}.

(** C9: on the objects of the store, [check_types] and [static_type]
    assign no field of any object: the store after a call is the store
    before it, so a second call does what the first did, with the same
    result or the same exception and message.  On a store that holds a
    tree, and with the recursion depth the tree needs, both calls end, with
    the result of the checker on the tree; the store that the constructors
    build for a tree is such a store; and on a tree that has passed
    [check_types], [static_type] returns a type and leaves the store as it
    is. *)
Theorem checking_is_read_only :
  (forall depth self (s : store T),
      (check_types_at depth self s).2 = s
      /\ (static_type_at depth self s).2 = s)
  /\ (forall depth self (s : store T),
      check_types_at depth self (check_types_at depth self s).2
      = check_types_at depth self s
      /\ static_type_at depth self (static_type_at depth self s).2
        = static_type_at depth self s)
  /\ (forall (s : store T) self e depth,
      represents s self e ->
      height e <= depth ->
      check_types_at depth self s = (Some (check_types e), s)
      /\ static_type_at depth self s = (Some (static_type e), s))
  /\ (forall e (s0 : store T), exists self s1,
      build e s0 = (Some (Return self), s0 ++ s1)
      /\ check_types_at (height e) self (s0 ++ s1) = (Some (check_types e), s0 ++ s1)
      /\ static_type_at (height e) self (s0 ++ s1) = (Some (static_type e), s0 ++ s1))
  /\ (forall (s : store T) self e depth,
      represents s self e ->
      height e <= depth ->
      check_types e = Return tt ->
      exists t,
        static_type e = Return t
        /\ static_type_at depth self (check_types_at depth self s).2
          = (Some (Return t), s)).
Proof.
  split; [|split; [|split; [|split]]].
  - intros depth self s.
    split; [apply check_types_at_reads_only|apply static_type_at_reads_only].
  - intros depth self s.
    rewrite (check_types_at_reads_only depth self s).
    rewrite (static_type_at_reads_only depth self s). split; reflexivity.
  - intros s self e depth Hrep Hheight.
    split; [apply check_types_at_agrees|apply static_type_at_agrees]; assumption.
  - intros e s0. destruct (build_represents e s0) as (self & s1 & Hbuild & Hrep).
    exists self, s1. split; [exact Hbuild|].
    split; [apply check_types_at_agrees|apply static_type_at_agrees];
      solve [exact Hrep|reflexivity].
  - intros s self e depth Hrep Hheight Hchecked.
    destruct (static_type_of_checked e Hchecked) as [t Ht].
    exists t. split; [exact Ht|].
    rewrite (check_types_at_reads_only depth self s), <- Ht.
    apply static_type_at_agrees; assumption.
Qed.

End ReadOnly.

(** ** The scenarios, run *)

Import Zoo.

(** Two results that evaluate to different values. *)
Ltac differ := let Heq := fresh in intros Heq; vm_compute in Heq; congruence.

Example scenario_A :
  check_types x_toString = Return tt /\ static_type x_toString = Return "Object".
Proof. split; reflexivity. Qed.

Example scenario_B :
  check_types dog = Return tt
  /\ check_types dog_of_five
     = Raise (JavaTypeError
         "Wrong number of arguments for Dog constructor: expected 0, got 1").
Proof. split; reflexivity. Qed.

Example scenario_C :
  check_types bark_at_five
  = Raise (JavaTypeError "Wrong number of arguments for Dog.bark(): expected 0, got 1").
Proof. reflexivity. Qed.

Example scenario_D :
  check_types feed_five
  = Raise (JavaTypeError "Dog.feed() expects arguments of type (Animal), but got (int)").
Proof. reflexivity. Qed.

(** The null type fits every reference type, and nothing else fits null. *)
Example null_is_asymmetric :
  check_types (MethodCall dog "feed" [NullLiteral]) = Return tt
  /\ is_subtype_of "null" "Animal" = true
  /\ is_subtype_of "Animal" "null" = false
  /\ is_subtype_of "null" "int" = false.
Proof. repeat split. Qed.

(** The objects that [build] makes for [new Dog().bark()]. *)
Example build_dog_bark :
  build (MethodCall dog "bark" []) [] = (Some (Return 1), dog_bark_store).
Proof. reflexivity. Qed.

(** C1 at work: [walk] fails first at index 1, the constructor of [Leash] at
    index 0; both messages list every argument. *)
Lemma first_mismatch_is_reported_witness :
  check_types walk_with_fives
  = Raise (JavaTypeError
      "Dog.walk() expects arguments of type (Leash, Animal, Animal), but got (Leash, int, int)")
  /\ check_types leash_of_animal
     = Raise (JavaTypeError
         "Leash constructor expects arguments of type (Dog, Animal), but got (Animal, int)").
Proof.
  split.
  - apply (proj1 (@first_mismatch_is_reported string types)
             dog "walk" [leash; five; five] "Dog"
             (Method.mk "walk" ["Leash"; "Animal"; "Animal"] "void")
             ["Leash"; "int"; "int"] 1 "int" "Animal");
      try reflexivity.
    + repeat constructor.
    + intros [|j] a p Hj; [|lia]. intros [= <-] [= <-]. reflexivity.
  - apply (proj2 (@first_mismatch_is_reported string types)
             "Leash" [animal; five] (Constructor.mk ["Dog"; "Animal"])
             ["Animal"; "int"] 0 "Animal" "Dog");
      try reflexivity.
    + repeat constructor.
    + intros j a p Hj. lia.
Defined.

(** C2, as stated, fails on [d.fly(new Pet())]: the receiver type [Dog]
    passes the root check and has no method [fly], yet the exception is the
    one of the argument, raised before the method is resolved. *)
Lemma unresolved_method_hidden_by_argument :
  static_type (Variable_ "d" "Dog") = Return "Dog"
  /\ is_subtype_of "Dog" object = true
  /\ find_method "Dog" "fly" = None
  /\ check_types fly_with_pet = Raise (JavaTypeError "Type Pet is not instantiable")
  /\ check_types fly_with_pet <> Raise (JavaTypeError (no_such_method "Dog" "fly")).
Proof. repeat split. differ. Qed.

Lemma unresolved_method_is_a_type_error_witness :
  check_types dog_fly = Raise (JavaTypeError "Dog has no method named fly").
Proof.
  apply (@unresolved_method_is_a_type_error string types dog "fly" [five] "Dog");
    try reflexivity.
  repeat constructor.
Defined.

Lemma children_are_checked_first_witness :
  check_types bad_dog_bark
  = Raise (JavaTypeError
      "Wrong number of arguments for Dog constructor: expected 0, got 1")
  /\ check_types feed_bad_dog
     = Raise (JavaTypeError
         "Wrong number of arguments for Dog constructor: expected 0, got 1")
  /\ check_types leash_of_bad_dog
     = Raise (JavaTypeError
         "Wrong number of arguments for Dog constructor: expected 0, got 1").
Proof.
  pose proof (@children_are_checked_first string types)
    as (_ & _ & Hreceiver & Hargument & Hnew).
  split; [|split].
  - apply (Hreceiver dog_of_five "bark" []). reflexivity.
  - apply (Hargument dog "feed" [dog] dog_of_five [five]); try reflexivity.
    repeat constructor.
  - apply (Hnew "Leash" [dog] dog_of_five []); try reflexivity.
    repeat constructor.
Defined.

(** C4, as stated, fails on [new Pet(5)]: the constructor of [Pet] declares
    no parameter and one argument is supplied, yet the exception is the one
    of the instantiability check, which comes before the arity check.  It
    fails on [new Dog().bark(new Pet())] too: [bark] declares no parameter,
    and the exception is the one of the argument. *)
Lemma arity_hidden_by_instantiability :
  (constructor "Pet" = Some (Constructor.mk [])
   /\ length (Constructor.argument_types (Constructor.mk (T:=string) [])) <> length [five]
   /\ check_types pet_of_five = Raise (JavaTypeError "Type Pet is not instantiable")
   /\ check_types pet_of_five
      <> Raise (JavaTypeError (constructor_arity_message "Pet" 0 1)))
  /\ (find_method "Dog" "bark" = Some (Method.mk "bark" [] "void")
     /\ check_types bark_at_pet = Raise (JavaTypeError "Type Pet is not instantiable")
     /\ check_types bark_at_pet
        <> Raise (JavaTypeError (method_arity_message "Dog" "bark" 0 1))).
Proof. repeat split; differ. Qed.

Lemma arity_mismatch_is_reported_witness :
  check_types bark_at_five
  = Raise (JavaTypeError "Wrong number of arguments for Dog.bark(): expected 0, got 1")
  /\ check_types dog_of_five
     = Raise (JavaTypeError
         "Wrong number of arguments for Dog constructor: expected 0, got 1").
Proof.
  split.
  - apply (proj1 (@arity_mismatch_is_reported string types)
             dog "bark" [five] "Dog" (Method.mk "bark" [] "void"));
      try reflexivity.
    + repeat constructor.
    + discriminate.
  - apply (proj2 (@arity_mismatch_is_reported string types)
             "Dog" [five] (Constructor.mk []));
      try reflexivity.
    + repeat constructor.
    + discriminate.
Defined.

(** C5, as stated, fails on [5.bark(new Dog(5))]: the static type [int] of
    the receiver is not below the root, yet the exception is the one of the
    argument, which is checked before the receiver type is looked at. *)
Lemma missing_methods_hidden_by_argument :
  static_type five = Return "int"
  /\ is_subtype_of "int" object = false
  /\ check_types five_bark_bad_dog
     = Raise (JavaTypeError
         "Wrong number of arguments for Dog constructor: expected 0, got 1")
  /\ check_types five_bark_bad_dog <> Raise (JavaTypeError (no_methods_message "int")).
Proof. repeat split. differ. Qed.

Lemma receiver_without_methods_is_reported_witness :
  check_types five_bark = Raise (JavaTypeError "Type int does not have methods").
Proof.
  apply (@receiver_without_methods_is_reported string types five "bark" [dog] "int");
    try reflexivity.
  repeat constructor.
Defined.

(** C6, as stated, fails on [new Pet(5.bark())]: [Pet] is not instantiable,
    yet the exception is the one of the argument. *)
Lemma not_instantiable_hidden_by_argument :
  is_instantiable "Pet" = false
  /\ check_types pet_of_bark = Raise (JavaTypeError "Type int does not have methods")
  /\ check_types pet_of_bark <> Raise (JavaTypeError (not_instantiable_message "Pet")).
Proof. repeat split. differ. Qed.

Lemma not_instantiable_is_reported_witness :
  check_types pet_of_dog = Raise (JavaTypeError "Type Pet is not instantiable").
Proof.
  apply (@not_instantiable_is_reported string types "Pet" [dog]); try reflexivity.
  repeat constructor.
Defined.

Lemma static_type_of_each_variant_witness :
  static_type x_toString = Return "Object".
Proof.
  pose proof (@static_type_of_each_variant string types)
    as (_ & _ & _ & _ & Hcall & _).
  apply (Hcall (Variable_ "x" "Object") "toString" [] "Object"
           (Method.mk "toString" [] "Object")); reflexivity.
Defined.

Lemma checking_is_read_only_witness :
  check_types_at 2 1 dog_bark_store = (Some (Return tt), dog_bark_store)
  /\ static_type_at 2 1 dog_bark_store = (Some (Return "void"), dog_bark_store).
Proof.
  pose proof (@checking_is_read_only string types) as (_ & _ & Hagrees & _ & _).
  apply (Hagrees dog_bark_store 1 (MethodCall dog "bark" []) 2).
  - exists 0, []. repeat split. exists []. repeat split.
  - cbn. lia.
Defined.

(** C10, as stated, fails on [new Object(new Dog().feed(5))]: [Object] is
    not instantiable and has no constructor signature, yet the exception is
    not the "not instantiable" one: it is the one of the argument. *)
Lemma another_failure_on_a_type_not_instantiable :
  is_instantiable "Object" = false
  /\ constructor "Object" = None
  /\ check_types object_of_feed
     = Raise (JavaTypeError
         "Dog.feed() expects arguments of type (Animal), but got (int)")
  /\ check_types object_of_feed
     <> Raise (JavaTypeError (not_instantiable_message "Object")).
Proof. repeat split. differ. Qed.

Lemma constructor_is_read_after_instantiability_witness :
  constructor "Object" = None
  /\ check_types object_of_dog = Raise (JavaTypeError "Type Object is not instantiable").
Proof.
  split; [reflexivity|].
  apply (proj1 (@constructor_is_read_after_instantiability string types
                  "Object" [dog] ltac:(repeat constructor))).
  reflexivity.
Defined.

(** ** The walk as a whole *)

Lemma bind_unit_right (r : result unit) : r ≫= (fun _ => Return tt) = r.
Proof. destruct r as [[]|e]; reflexivity. Qed.

Lemma for_each_app {A : Type} (body : A -> result unit) xs ys :
  for_each body (xs ++ ys) = for_each body xs ≫= fun _ => for_each body ys.
Proof.
  induction xs as [|x xs IH]; [reflexivity|].
  cbn [app]. rewrite !for_each_cons. destruct (body x) as [[]|e]; [exact IH|reflexivity].
Qed.

Lemma for_each_ext {A : Type} (body body' : A -> result unit) xs :
  (forall x, x ∈ xs -> body x = body' x) -> for_each body xs = for_each body' xs.
Proof.
  induction xs as [|x xs IH]; intros Hbody; [reflexivity|].
  rewrite !for_each_cons, (Hbody x) by left.
  destruct (body' x) as [[]|e]; [|reflexivity].
  apply IH. intros y Hy. apply Hbody. right. exact Hy.
Qed.

Lemma for_each_returns {A : Type} (body : A -> result unit) xs :
  for_each body xs = Return tt -> Forall (fun x => body x = Return tt) xs.
Proof.
  induction xs as [|x xs IH]; intros Hrun; constructor;
    rewrite for_each_cons in Hrun; destruct (body x) as [[]|e]; try discriminate.
  - reflexivity.
  - apply IH. exact Hrun.
Qed.

Section WalkFacts.
Context {T : Type} `{TypeModel T}.

Lemma for_each_postorder (args : list (Expression T)) :
  Forall (fun a => check_types a = for_each validate (postorder a)) args ->
  for_each validate (flat_map postorder args) = for_each check_types args.
Proof.
  induction 1 as [|a args Ha _ IH]; [reflexivity|].
  cbn [flat_map]. rewrite for_each_app, for_each_cons, <- Ha, IH. reflexivity.
Qed.

Lemma check_types_walks e : check_types e = for_each validate (postorder e).
Proof.
  induction e as [name t|value t|receiver method_name args IH IHargs|t args IHargs]
    using Expression_rect_args; cbn [postorder].
  - reflexivity.
  - reflexivity.
  - rewrite check_types_MethodCall, !for_each_app, <- IH, (for_each_postorder _ IHargs).
    rewrite for_each_cons, for_each_nil. cbn [validate].
    rewrite bind_unit_right. reflexivity.
  - rewrite check_types_ConstructorCall, for_each_app, (for_each_postorder _ IHargs).
    rewrite for_each_cons, for_each_nil. cbn [validate].
    rewrite bind_unit_right. reflexivity.
Qed.

(** [check_types] is one walk over the nodes in postorder that validates each
    node and stops at the first that fails: the exception of the whole check
    is the exception of that node, every node before it in postorder has
    passed its own validation, and no node after it is looked at. *)
Theorem check_types_is_a_postorder_walk :
  (forall e : Expression T, check_types e = for_each validate (postorder e))
  /\ (forall (e : Expression T) x,
        check_types e = Raise x ->
        exists before node after,
          postorder e = before ++ node :: after
          /\ Forall (fun n => validate n = Return tt) before
          /\ validate node = Raise x)
  /\ (forall e : Expression T,
        check_types e = Return tt ->
        Forall (fun n => validate n = Return tt) (postorder e)).
Proof.
  split; [exact check_types_walks|split].
  - intros e x Hraise. rewrite check_types_walks in Hraise.
    destruct (for_each_cases validate (postorder e))
      as [Hreturn|(before & node & after & x' & Hsplit & Hbefore & Hnode & Hrun)].
    + congruence.
    + exists before, node, after. repeat split; [exact Hsplit|exact Hbefore|].
      congruence.
  - intros e Hreturn. apply for_each_returns. rewrite <- check_types_walks. exact Hreturn.
Qed.

End WalkFacts.

(** ** The checker and the typing rules *)

Section TypingFacts.
Context {T : Type} `{TypeModel T}.

(** A comparison that fails never returns. *)
Lemma method_mismatch_raises (receiver_type : result T) (actuals : result (list T))
    (message : T -> list T -> string) :
  (receiver_type' ← receiver_type; actuals' ← actuals;
   Raise (JavaTypeError (message receiver_type' actuals'))) <> Return tt.
Proof. destruct receiver_type as [t|e], actuals as [ts|e']; discriminate. Qed.

Lemma constructor_mismatch_raises (actuals : result (list T)) (message : list T -> string) :
  (actuals' ← actuals; Raise (JavaTypeError (message actuals'))) <> Return tt.
Proof. destruct actuals as [ts|e']; discriminate. Qed.

(** When the comparison loop returns, every argument has a static type that
    fits the parameter at its index. *)
Lemma compare_returns args expected_arg_types mismatch :
  length expected_arg_types = length args ->
  mismatch <> Return tt ->
  for_each (compare_at args expected_arg_types mismatch)
    (seq 0 (length expected_arg_types)) = Return tt ->
  Forall2 (fun arg expected =>
             exists actual, static_type arg = Return actual
                            /\ is_subtype_of actual expected = true)
    args expected_arg_types.
Proof.
  intros Hlength Hmismatch Hloop. apply for_each_returns in Hloop.
  apply Forall2_same_length_lookup. split; [symmetry; exact Hlength|].
  intros i arg expected Harg Hexpected.
  assert (Hi : i ∈ seq 0 (length expected_arg_types)).
  { apply list_elem_of_In, in_seq. apply lookup_lt_Some in Hexpected. lia. }
  pose proof (proj1 (Forall_forall _ _) Hloop i Hi) as Hat.
  unfold compare_at in Hat.
  rewrite (subscript_Some _ _ _ Harg), bind_Return in Hat.
  destruct (static_type arg) as [actual|e]; [|discriminate].
  rewrite bind_Return, (subscript_Some _ _ _ Hexpected), bind_Return in Hat.
  exists actual. split; [reflexivity|].
  destruct (is_subtype_of actual expected); [reflexivity|].
  cbn [negb] in Hat. contradiction.
Qed.

Lemma arguments_have_types (args : list (Expression T)) expected_arg_types :
  Forall (fun a => forall t, check_types a = Return tt -> static_type a = Return t ->
                             has_type a t) args ->
  Forall (fun a => check_types a = Return tt) args ->
  Forall2 (fun arg expected =>
             exists actual, static_type arg = Return actual
                            /\ is_subtype_of actual expected = true)
    args expected_arg_types ->
  Forall2 (fun arg expected =>
             exists actual, has_type arg actual
                            /\ is_subtype_of actual expected = true)
    args expected_arg_types.
Proof.
  intros IH Hchecked Hfit.
  induction Hfit as [|arg expected args expected_arg_types (actual & Hstatic & Hsub) _ IHfit];
    constructor.
  - exists actual. split; [|exact Hsub].
    apply (Forall_inv IH); [exact (Forall_inv Hchecked)|exact Hstatic].
  - apply IHfit; [exact (Forall_inv_tail IH)|exact (Forall_inv_tail Hchecked)].
Qed.

Lemma static_type_MethodCall (receiver : Expression T) method_name args :
  static_type (MethodCall receiver method_name args)
  = (receiver_type ← static_type receiver;
     method ← method_named receiver_type method_name;
     Return (Method.return_type method)).
Proof. reflexivity. Qed.

Lemma checked_has_type (e : Expression T) : forall t,
  check_types e = Return tt -> static_type e = Return t -> has_type e t.
Proof.
  induction e as [name d|value d|receiver method_name args IH IHargs|d args IHargs]
    using Expression_rect_args; intros t Hcheck Hstatic.
  - injection Hstatic as <-. constructor.
  - injection Hstatic as <-. constructor.
  - rewrite check_types_MethodCall in Hcheck.
    rewrite static_type_MethodCall in Hstatic.
    destruct (check_types receiver) as [[]|e] eqn:Hreceiver; [|discriminate].
    rewrite bind_Return in Hcheck.
    destruct (for_each check_types args) as [[]|e] eqn:Hargs; [|discriminate].
    rewrite bind_Return in Hcheck. unfold validate_method_call in Hcheck.
    destruct (static_type receiver) as [receiver_type|e] eqn:Hrt; [|discriminate].
    rewrite bind_Return in Hcheck. rewrite bind_Return in Hstatic.
    destruct (is_subtype_of receiver_type object) eqn:Hroot; [|discriminate].
    cbn [negb] in Hcheck. rewrite bind_Return in Hcheck.
    destruct (find_method receiver_type method_name) as [method|] eqn:Hmethod;
      [|rewrite (method_named_None _ _ Hmethod) in Hcheck; discriminate].
    rewrite (method_named_Some _ _ _ Hmethod) in Hcheck, Hstatic.
    rewrite bind_Return in Hcheck. rewrite bind_Return in Hstatic.
    injection Hstatic as <-.
    destruct (decide (length (Method.argument_types method) = length args))
      as [Hlength|Hlength];
      [|rewrite (length_differs _ _ Hlength) in Hcheck; discriminate].
    rewrite (length_agrees _ _ Hlength), bind_Return in Hcheck.
    apply type_MethodCall with (receiver_type := receiver_type);
      [apply IH; reflexivity|exact Hroot|exact Hmethod|].
    apply arguments_have_types; [exact IHargs|apply for_each_returns; exact Hargs|].
    apply compare_returns with (3 := Hcheck); [exact Hlength|].
    apply (method_mismatch_raises (Return receiver_type) (mapM static_type args)
             (fun t ts => method_mismatch_message t method_name
                            (Method.argument_types method) ts)).
  - rewrite check_types_ConstructorCall in Hcheck. injection Hstatic as <-.
    destruct (for_each check_types args) as [[]|e] eqn:Hargs; [|discriminate].
    rewrite bind_Return in Hcheck. unfold validate_constructor_call in Hcheck.
    destruct (is_instantiable d) eqn:Hinst; [|discriminate].
    cbn [negb] in Hcheck. rewrite bind_Return in Hcheck.
    unfold get_constructor in Hcheck.
    destruct (constructor d) as [ctor|] eqn:Hctor; [|discriminate].
    cbv beta iota in Hcheck. rewrite bind_Return in Hcheck.
    destruct (decide (length (Constructor.argument_types ctor) = length args))
      as [Hlength|Hlength];
      [|rewrite (length_differs _ _ Hlength) in Hcheck; discriminate].
    rewrite (length_agrees _ _ Hlength), bind_Return in Hcheck.
    apply type_ConstructorCall with (ctor := ctor); [exact Hinst|exact Hctor|].
    apply arguments_have_types; [exact IHargs|apply for_each_returns; exact Hargs|].
    apply compare_returns with (3 := Hcheck); [exact Hlength|].
    apply (constructor_mismatch_raises (mapM static_type args)
             (fun ts => constructor_mismatch_message d
                          (Constructor.argument_types ctor) ts)).
Qed.

(** Well-typed arguments are checked, and have static types that fit. *)
Lemma typed_arguments_fit (args : list (Expression T)) expected_arg_types :
  Forall (fun a => forall t, has_type a t ->
                             check_types a = Return tt /\ static_type a = Return t) args ->
  Forall2 (fun arg expected =>
             exists actual, has_type arg actual
                            /\ is_subtype_of actual expected = true)
    args expected_arg_types ->
  Forall (fun a => check_types a = Return tt) args
  /\ exists actuals,
       mapM static_type args = Return actuals
       /\ Forall2 (fun actual expected => is_subtype_of actual expected = true)
            actuals expected_arg_types.
Proof.
  intros IH Hfit.
  induction Hfit as [|arg expected args expected_arg_types (actual & Htyped & Hsub) _ IHfit].
  - split; [constructor|]. exists []. split; [reflexivity|constructor].
  - destruct (Forall_inv IH actual Htyped) as [Hcheck Hstatic].
    destruct (IHfit (Forall_inv_tail IH)) as (Hchecked & actuals & Hactuals & Hfits).
    split; [constructor; assumption|].
    exists (actual :: actuals). split; [|constructor; assumption].
    cbn [mapM]. rewrite Hstatic, bind_Return, Hactuals. reflexivity.
Qed.

Lemma has_type_checked (e : Expression T) : forall t,
  has_type e t -> check_types e = Return tt /\ static_type e = Return t.
Proof.
  induction e as [name d|value d|receiver method_name args IH IHargs|d args IHargs]
    using Expression_rect_args; intros t Htyped; inversion Htyped; subst.
  - split; reflexivity.
  - split; reflexivity.
  - match goal with
    | Hr : has_type receiver ?rt, Hfit : Forall2 _ args _ |- _ =>
        destruct (IH rt Hr) as [Hreceiver Hrt];
        destruct (typed_arguments_fit args _ IHargs Hfit)
          as (Hchecked & actuals & Hactuals & Hfits)
    end.
    split.
    + eapply (proj1 well_typed_calls_pass); try eassumption.
      * apply mapM_Return, Forall2_length in Hactuals.
        apply Forall2_length in Hfits. lia.
      * intros j a p Ha Hp.
        destruct (Forall2_lookup_l _ _ _ _ _ Hfits Ha) as (p' & Hp' & Hsub).
        congruence.
    + rewrite static_type_MethodCall, Hrt, bind_Return.
      erewrite method_named_Some by eassumption. reflexivity.
  - match goal with
    | Hfit : Forall2 _ args _ |- _ =>
        destruct (typed_arguments_fit args _ IHargs Hfit)
          as (Hchecked & actuals & Hactuals & Hfits)
    end.
    split; [|reflexivity].
    eapply (proj2 well_typed_calls_pass); try eassumption.
    + apply mapM_Return, Forall2_length in Hactuals.
      apply Forall2_length in Hfits. lia.
    + intros j a p Ha Hp.
      destruct (Forall2_lookup_l _ _ _ _ _ Hfits Ha) as (p' & Hp' & Hsub).
      congruence.
Qed.

(** [check_types] decides the typing rules: a tree is well typed, of type
    [t], exactly when [check_types] returns on it and [static_type] returns
    [t]; so [check_types] returns exactly on the well-typed trees. *)
Theorem check_types_decides_typing :
  (forall (e : Expression T) t,
      has_type e t <-> check_types e = Return tt /\ static_type e = Return t)
  /\ (forall e : Expression T,
      check_types e = Return tt <-> exists t, has_type e t).
Proof.
  split.
  - intros e t. split.
    + apply has_type_checked.
    + intros [Hcheck Hstatic]. apply checked_has_type; assumption.
  - intros e. split.
    + intros Hcheck. destruct (static_type_of_checked e Hcheck) as [t Hstatic].
      exists t. apply checked_has_type; assumption.
    + intros [t Htyped]. apply (has_type_checked e t Htyped).
Qed.

End TypingFacts.

(** ** How a check can fail *)

Section FailureFacts.
Context {T : Type} `{TypeModel T}.

Lemma in_flat_postorder (n a : Expression T) args :
  a ∈ args -> n ∈ postorder a -> n ∈ flat_map postorder args.
Proof.
  intros Ha Hn. apply list_elem_of_In, in_flat_map.
  exists a. split; apply list_elem_of_In; assumption.
Qed.

Lemma missing_constructor_in_receiver receiver method_name args x :
  missing_constructor receiver x ->
  missing_constructor (MethodCall receiver method_name args) x.
Proof.
  intros (Hx & t & targs & Hin & Hinst & Hctor).
  split; [exact Hx|]. exists t, targs. split; [|split; assumption].
  cbn [postorder]. apply elem_of_app. left. exact Hin.
Qed.

Lemma missing_constructor_in_argument (parent a : Expression T) args x :
  (forall n, n ∈ flat_map postorder args -> n ∈ postorder parent) ->
  a ∈ args ->
  missing_constructor a x ->
  missing_constructor parent x.
Proof.
  intros Hparent Ha (Hx & t & targs & Hin & Hinst & Hctor).
  split; [exact Hx|]. exists t, targs. split; [|split; assumption].
  apply Hparent. apply in_flat_postorder with (a := a); assumption.
Qed.

(** With its children checked, a method call fails with a type error only. *)
Lemma validate_method_call_failure receiver method_name args x :
  check_types receiver = Return tt ->
  Forall (fun a => check_types a = Return tt) args ->
  validate_method_call receiver method_name args = Raise x ->
  exists message, x = JavaTypeError message.
Proof.
  intros Hreceiver Hargs. unfold validate_method_call.
  destruct (static_type_of_checked receiver Hreceiver) as [receiver_type Hrt].
  destruct (static_types_of_checked args Hargs) as [actuals Hactuals].
  rewrite Hrt, bind_Return.
  destruct (is_subtype_of receiver_type object); cbn [negb];
    [|intros [= <-]; eexists; reflexivity].
  rewrite bind_Return. unfold method_named.
  destruct (find_method receiver_type method_name) as [method|];
    [|intros [= <-]; eexists; reflexivity].
  rewrite bind_Return.
  destruct (decide (length (Method.argument_types method) = length args))
    as [Hlength|Hlength].
  - rewrite (length_agrees _ _ Hlength), !bind_Return, Hactuals, bind_Return.
    edestruct compare_outcome as [-> | ->];
      [exact Hactuals|exact Hlength|reflexivity|discriminate|].
    intros [= <-]. eexists; reflexivity.
  - rewrite (length_differs _ _ Hlength). intros [= <-]. eexists; reflexivity.
Qed.

(** With its arguments checked, a constructor call fails with a type error,
    or for want of a constructor signature on an instantiable type. *)
Lemma validate_constructor_call_failure instantiated_type args x :
  Forall (fun a => check_types a = Return tt) args ->
  validate_constructor_call instantiated_type args = Raise x ->
  (exists message, x = JavaTypeError message)
  \/ (x = AttributeError "constructor"
      /\ is_instantiable instantiated_type = true
      /\ constructor instantiated_type = None).
Proof.
  intros Hargs. unfold validate_constructor_call, get_constructor.
  destruct (static_types_of_checked args Hargs) as [actuals Hactuals].
  destruct (is_instantiable instantiated_type); cbn [negb];
    [|intros [= <-]; left; eexists; reflexivity].
  rewrite bind_Return.
  destruct (constructor instantiated_type) as [ctor|];
    [|intros [= <-]; right; repeat split].
  rewrite bind_Return.
  destruct (decide (length (Constructor.argument_types ctor) = length args))
    as [Hlength|Hlength].
  - rewrite (length_agrees _ _ Hlength), bind_Return, Hactuals, bind_Return.
    edestruct compare_outcome as [-> | ->];
      [exact Hactuals|exact Hlength|reflexivity|discriminate|].
    intros [= <-]. left. eexists; reflexivity.
  - rewrite (length_differs _ _ Hlength). intros [= <-]. left. eexists; reflexivity.
Qed.

Lemma check_types_failure (e : Expression T) : forall x,
  check_types e = Raise x ->
  (exists message, x = JavaTypeError message) \/ missing_constructor e x.
Proof.
  induction e as [name d|value d|receiver method_name args IH IHargs|d args IHargs]
    using Expression_rect_args; intros x Hraise.
  - discriminate.
  - discriminate.
  - rewrite check_types_MethodCall in Hraise.
    destruct (check_types receiver) as [[]|e] eqn:Hreceiver.
    + rewrite bind_Return in Hraise.
      destruct (for_each_cases check_types args)
        as [Hargs|(before & a & after & x' & -> & _ & Ha & Hrun)].
      * rewrite Hargs, bind_Return in Hraise. left.
        apply (validate_method_call_failure receiver method_name args);
          [exact Hreceiver|apply for_each_returns; exact Hargs|exact Hraise].
      * rewrite Hrun in Hraise. injection Hraise as <-.
        assert (Hin : a ∈ before ++ a :: after) by (apply elem_of_app; right; left).
        destruct (proj1 (Forall_forall _ _) IHargs a Hin x' Ha) as [Htype|Hmissing];
          [left; exact Htype|right].
        apply (missing_constructor_in_argument _ a (before ++ a :: after));
          [|exact Hin|exact Hmissing].
        intros n Hn. cbn [postorder]. apply elem_of_app. right.
        apply elem_of_app. left. exact Hn.
    + injection Hraise as <-.
      destruct (IH e eq_refl) as [Htype|Hmissing]; [left; exact Htype|right].
      apply missing_constructor_in_receiver. exact Hmissing.
  - rewrite check_types_ConstructorCall in Hraise.
    destruct (for_each_cases check_types args)
      as [Hargs|(before & a & after & x' & -> & _ & Ha & Hrun)].
    + rewrite Hargs, bind_Return in Hraise.
      destruct (validate_constructor_call_failure d args x
                  ltac:(apply for_each_returns; exact Hargs) Hraise)
        as [Htype|(Hx & Hinst & Hctor)]; [left; exact Htype|right].
      split; [exact Hx|]. exists d, args. split; [|split; assumption].
      cbn [postorder]. apply elem_of_app. right. left.
    + rewrite Hrun in Hraise. injection Hraise as <-.
      assert (Hin : a ∈ before ++ a :: after) by (apply elem_of_app; right; left).
      destruct (proj1 (Forall_forall _ _) IHargs a Hin x' Ha) as [Htype|Hmissing];
        [left; exact Htype|right].
      apply (missing_constructor_in_argument _ a (before ++ a :: after));
        [|exact Hin|exact Hmissing].
      intros n Hn. cbn [postorder]. apply elem_of_app. left. exact Hn.
Qed.

(** A check that fails raises the type error, except where the tree
    instantiates a type that is instantiable and has no constructor
    signature: reading it is the only other failure.  The index of the
    comparison loop is never out of range.  So on a type model where every
    instantiable type has a constructor signature, a check returns or raises
    the type error. *)
Theorem check_types_fails_with_a_type_error :
  (forall (e : Expression T) x,
      check_types e = Raise x ->
      (exists message, x = JavaTypeError message)
      \/ (x = AttributeError "constructor"
          /\ exists t args,
               ConstructorCall t args ∈ postorder e
               /\ is_instantiable t = true
               /\ constructor t = None))
  /\ (forall e : Expression T, check_types e <> Raise IndexError)
  /\ (constructors_declared ->
      forall e : Expression T,
        check_types e = Return tt
        \/ exists message, check_types e = Raise (JavaTypeError message)).
Proof.
  split; [exact check_types_failure|split].
  - intros e Hraise.
    destruct (check_types_failure e _ Hraise) as [[message Hx]|[Hx _]]; discriminate.
  - intros Hdeclared e.
    destruct (check_types e) as [[]|x] eqn:Hcheck; [left; reflexivity|right].
    destruct (check_types_failure e x Hcheck)
      as [[message ->]|(_ & t & args & _ & Hinst & Hctor)].
    + exists message. reflexivity.
    + destruct (Hdeclared t Hinst Hctor).
Qed.

End FailureFacts.

(** ** Trees that the checker cannot tell apart *)

Section LikenessFacts.
Context {T : Type} `{TypeModel T}.

Lemma for_each_alike (args args' : list (Expression T)) :
  Forall2 alike args args' ->
  for_each check_types args = for_each check_types args'.
Proof.
  induction 1 as [|a a' args args' [Hcheck _] _ IH]; [reflexivity|].
  rewrite !for_each_cons, Hcheck, IH. reflexivity.
Qed.

Lemma static_types_alike (args args' : list (Expression T)) :
  Forall2 alike args args' ->
  mapM static_type args = mapM static_type args'.
Proof.
  induction 1 as [|a a' args args' [_ Hstatic] _ IH]; [reflexivity|].
  cbn [mapM]. rewrite Hstatic, IH. reflexivity.
Qed.

Lemma compare_at_alike (args args' : list (Expression T)) expected_arg_types mismatch i :
  Forall2 alike args args' ->
  compare_at args expected_arg_types mismatch i
  = compare_at args' expected_arg_types mismatch i.
Proof.
  intros Halike. unfold compare_at, subscript.
  destruct (args !! i) as [a|] eqn:Ha.
  - destruct (Forall2_lookup_l _ _ _ _ _ Halike Ha) as (a' & -> & _ & Hstatic).
    rewrite !bind_Return, Hstatic. reflexivity.
  - apply lookup_ge_None in Ha. rewrite (Forall2_length _ _ _ Halike) in Ha.
    apply lookup_ge_None in Ha. rewrite Ha. reflexivity.
Qed.

Lemma method_call_alike (receiver receiver' : Expression T) method_name args args' :
  alike receiver receiver' ->
  Forall2 alike args args' ->
  alike (MethodCall receiver method_name args) (MethodCall receiver' method_name args').
Proof.
  intros [Hcheck Hstatic] Hargs. split.
  - rewrite !check_types_MethodCall, Hcheck, (for_each_alike _ _ Hargs).
    unfold validate_method_call.
    rewrite Hstatic, (static_types_alike _ _ Hargs), (Forall2_length _ _ _ Hargs).
    destruct (check_types receiver') as [[]|e]; [|reflexivity].
    destruct (for_each check_types args') as [[]|e]; [|reflexivity].
    destruct (static_type receiver') as [receiver_type|e]; [|reflexivity].
    rewrite !bind_Return.
    destruct (negb (is_subtype_of receiver_type object)); [reflexivity|].
    rewrite !bind_Return.
    destruct (method_named receiver_type method_name) as [method|e]; [|reflexivity].
    rewrite !bind_Return.
    destruct (negb (length (Method.argument_types method) =? length args')%nat);
      [reflexivity|].
    rewrite !bind_Return.
    apply for_each_ext. intros i _. apply compare_at_alike. exact Hargs.
  - rewrite !static_type_MethodCall, Hstatic. reflexivity.
Qed.

Lemma constructor_call_alike instantiated_type (args args' : list (Expression T)) :
  Forall2 alike args args' ->
  alike (ConstructorCall instantiated_type args) (ConstructorCall instantiated_type args').
Proof.
  intros Hargs. split; [|reflexivity].
  rewrite !check_types_ConstructorCall, (for_each_alike _ _ Hargs).
  unfold validate_constructor_call.
  rewrite (static_types_alike _ _ Hargs), (Forall2_length _ _ _ Hargs).
  destruct (for_each check_types args') as [[]|e]; [|reflexivity].
  destruct (negb (is_instantiable instantiated_type)); [reflexivity|].
  rewrite !bind_Return.
  destruct (get_constructor instantiated_type) as [ctor|e]; [|reflexivity].
  rewrite !bind_Return.
  destruct (negb (length (Constructor.argument_types ctor) =? length args')%nat);
    [reflexivity|].
  rewrite !bind_Return.
  apply for_each_ext. intros i _. apply compare_at_alike. exact Hargs.
Qed.

(** A call sees its children only through the outcome of their check and
    their static type: replacing the receiver and the arguments by trees with
    the same two outcomes changes neither the check nor the static type of
    the call.  A variable and a literal of one type are such trees. *)
Theorem calls_see_children_through_their_types :
  (forall (receiver receiver' : Expression T) method_name args args',
      alike receiver receiver' ->
      Forall2 alike args args' ->
      check_types (MethodCall receiver method_name args)
      = check_types (MethodCall receiver' method_name args')
      /\ static_type (MethodCall receiver method_name args)
         = static_type (MethodCall receiver' method_name args'))
  /\ (forall instantiated_type (args args' : list (Expression T)),
      Forall2 alike args args' ->
      check_types (ConstructorCall instantiated_type args)
      = check_types (ConstructorCall instantiated_type args'))
  /\ (forall name value (t : T), alike (Variable_ name t) (Literal value t)).
Proof.
  split; [|split].
  - intros receiver receiver' method_name args args' Hreceiver Hargs.
    apply method_call_alike; assumption.
  - intros instantiated_type args args' Hargs.
    apply constructor_call_alike. exact Hargs.
  - intros name value t. split; reflexivity.
Qed.

Lemma relabel_alike (f g : string -> string) (e : Expression T) :
  alike (relabel f g e) e.
Proof.
  induction e as [name d|value d|receiver method_name args IH IHargs|d args IHargs]
    using Expression_rect_args; cbn [relabel].
  - split; reflexivity.
  - split; reflexivity.
  - apply method_call_alike; [exact IH|].
    induction IHargs as [|a args Ha _ IHrest]; constructor; assumption.
  - apply constructor_call_alike.
    induction IHargs as [|a args Ha _ IHrest]; constructor; assumption.
Qed.

(** Neither [check_types] nor [static_type] looks at the name of a variable
    or at the value of a literal: renaming every variable and replacing
    every literal value, anywhere in a tree, changes no outcome and no
    message. *)
Theorem names_and_values_are_not_looked_at (f g : string -> string) (e : Expression T) :
  check_types (relabel f g e) = check_types e
  /\ static_type (relabel f g e) = static_type e.
Proof. exact (relabel_alike f g e). Qed.

End LikenessFacts.

(** ** Inside a checked tree *)

Section SubtreeFacts.
Context {T : Type} `{TypeModel T}.

Abbreviation safe := (fun n : Expression T =>
  check_types n = Return tt /\ exists t, static_type n = Return t).

Lemma checked_is_safe (e : Expression T) : check_types e = Return tt -> safe e.
Proof. intros Hcheck. split; [exact Hcheck|apply static_type_of_checked; exact Hcheck]. Qed.

Lemma safe_arguments (args : list (Expression T)) :
  Forall (fun a => check_types a = Return tt -> Forall safe (postorder a)) args ->
  Forall (fun a => check_types a = Return tt) args ->
  Forall safe (flat_map postorder args).
Proof.
  intros IH Hchecked.
  induction Hchecked as [|a args Ha _ IHrest]; cbn [flat_map]; [constructor|].
  apply Forall_app. split.
  - apply (Forall_inv IH). exact Ha.
  - apply IHrest. exact (Forall_inv_tail IH).
Qed.

(** Once [check_types] has returned on a tree, it returns on every subtree,
    and [static_type] returns a type on every subtree: after one check of the
    root, [static_type] is safe everywhere below it. *)
Theorem checked_tree_is_safe_everywhere (e : Expression T) :
  check_types e = Return tt ->
  Forall (fun n => check_types n = Return tt /\ exists t, static_type n = Return t)
    (postorder e).
Proof.
  induction e as [name d|value d|receiver method_name args IH IHargs|d args IHargs]
    using Expression_rect_args; intros Hcheck; cbn [postorder].
  - repeat constructor. eexists; reflexivity.
  - repeat constructor. eexists; reflexivity.
  - pose proof (checked_is_safe _ Hcheck) as Hsafe.
    rewrite check_types_MethodCall in Hcheck.
    destruct (check_types receiver) as [[]|x] eqn:Hreceiver; [|discriminate].
    rewrite bind_Return in Hcheck.
    destruct (for_each check_types args) as [[]|x] eqn:Hargs; [|discriminate].
    apply Forall_app. split; [apply IH; reflexivity|].
    apply Forall_app. split; [|repeat constructor; apply Hsafe].
    apply safe_arguments; [exact IHargs|apply for_each_returns; exact Hargs].
  - pose proof (checked_is_safe _ Hcheck) as Hsafe.
    rewrite check_types_ConstructorCall in Hcheck.
    destruct (for_each check_types args) as [[]|x] eqn:Hargs; [|discriminate].
    apply Forall_app. split; [|repeat constructor; apply Hsafe].
    apply safe_arguments; [exact IHargs|apply for_each_returns; exact Hargs].
Qed.

(** On a method call that is its own receiver, the recursion of
    [check_types] and of [static_type] has no end: no depth is enough, and
    the store is left as it is. *)
Theorem own_receiver_recursion_has_no_end (s : store T) self method_name args :
  s !! self = Some (MethodCallObject self method_name args) ->
  forall depth,
    check_types_at depth self s = (None, s)
    /\ static_type_at depth self s = (None, s).
Proof.
  intros Hself depth. induction depth as [|depth [IHcheck IHstatic]].
  - split; reflexivity.
  - split.
    + cbn [check_types_at]. rewrite (bind_load _ _ _ _ Hself). cbv beta iota.
      unfold bind_M at 1. rewrite IHcheck. reflexivity.
    + cbn [static_type_at]. rewrite (bind_load _ _ _ _ Hself). cbv beta iota.
      unfold bind_M at 1. rewrite IHstatic. reflexivity.
Qed.

End SubtreeFacts.

(** ** The properties of the whole walk, run on the scenarios *)

(** In the hierarchy of the scenarios every instantiable type has a
    constructor signature. *)
Lemma zoo_constructors_declared : constructors_declared (T:=string).
Proof.
  intros t. cbn [is_instantiable constructor types hierarchy].
  destruct (registry !! t) as [decl|] eqn:Hdecl; [|discriminate].
  unfold registry in Hdecl.
  repeat (apply lookup_insert_Some in Hdecl as [[_ <-]|[_ Hdecl]];
          [cbn; solve [discriminate|intros _; discriminate]|]).
  apply lookup_singleton_Some in Hdecl as [_ <-]. cbn. discriminate.
Qed.

Lemma check_types_is_a_postorder_walk_witness :
  exists before node after,
    postorder feed_bad_dog = before ++ node :: after
    /\ Forall (fun n => validate n = Return tt) before
    /\ validate node
       = Raise (JavaTypeError
           "Wrong number of arguments for Dog constructor: expected 0, got 1").
Proof.
  apply (proj1 (proj2 (@check_types_is_a_postorder_walk string types)) feed_bad_dog).
  reflexivity.
Defined.

Lemma check_types_decides_typing_witness : has_type x_toString "Object".
Proof.
  apply (proj2 (proj1 (@check_types_decides_typing string types) x_toString "Object")).
  split; reflexivity.
Defined.

Lemma check_types_fails_with_a_type_error_witness :
  check_types pet_of_bark = Return tt
  \/ exists message, check_types pet_of_bark = Raise (JavaTypeError message).
Proof.
  apply (proj2 (proj2 (@check_types_fails_with_a_type_error string types))
           zoo_constructors_declared pet_of_bark).
Defined.

Lemma calls_see_children_through_their_types_witness :
  check_types (MethodCall dog "feed" [five])
  = check_types (MethodCall (Variable_ "d" "Dog") "feed" [Literal "7" "int"])
  /\ static_type (MethodCall dog "feed" [five])
     = static_type (MethodCall (Variable_ "d" "Dog") "feed" [Literal "7" "int"]).
Proof.
  apply (proj1 (@calls_see_children_through_their_types string types)
           dog (Variable_ "d" "Dog") "feed" [five] [Literal "7" "int"]).
  - split; reflexivity.
  - repeat constructor.
Defined.

Lemma checked_tree_is_safe_everywhere_witness :
  Forall (fun n => check_types n = Return tt /\ exists t, static_type n = Return t)
    (postorder (MethodCall dog "walk" [leash; dog; NullLiteral])).
Proof.
  apply (@checked_tree_is_safe_everywhere string types
           (MethodCall dog "walk" [leash; dog; NullLiteral])).
  reflexivity.
Defined.

Lemma own_receiver_recursion_has_no_end_witness :
  check_types_at 5 0 [MethodCallObject 0 "bark" []]
  = (None, [MethodCallObject (T:=string) 0 "bark" []])
  /\ static_type_at 5 0 [MethodCallObject 0 "bark" []]
     = (None, [MethodCallObject (T:=string) 0 "bark" []]).
Proof.
  apply (@own_receiver_recursion_has_no_end string types
           [MethodCallObject 0 "bark" []] 0 "bark" [] eq_refl 5).
Defined.
